(** * Exchange-rates ETL: the batch collector and the Airflow operator

    A shallow embedding of [exchange_rates.py] (class [ExchangeRates] and the
    per-date loop of its [__main__] block) and of
    [airflow/include/exchange_api_operator.py] (class [ExchangeApiOperator]),
    with the statements of the specification proved or refuted on it.

    Python exceptions are values of [Exception]; a statement sequence is a
    computation in the monad [M], which threads the mutable [State] (bucket,
    tables, files, log) and stops at the first raise.  Everything the code
    only consumes -- the HTTP endpoint, the storage and BigQuery services,
    the clock, [json.loads], the text form of floats and datetimes -- is a
    field of the class [Environment]. *)

From Stdlib Require Import ZArith List String Ascii Lia Bool.
From Stdlib Require Import Floats.SpecFloat.
From stdpp Require Import base option list list_numbers gmap strings pretty.

Open Scope string_scope.
Open Scope Z_scope.
Open Scope list_scope.

(** ** Python values *)

(** The double-quote character, for messages that contain it. *)
Definition dq : string := String "034"%char EmptyString.
Definition sq : string := "'".
Definition nl : string := String "010"%char EmptyString.

Inductive Exception :=
| PyException (msg : string)      (* raise Exception(msg) *)
| ValueError (msg : string)
| AttributeError (msg : string)
| KeyError (key : string)
| TypeError (msg : string)
| NotFound (msg : string)         (* google.cloud.exceptions.NotFound *)
| ServiceError (msg : string)     (* raised inside requests / google.cloud *)
| OverflowError (msg : string)
| AirflowException (msg : string).

(** [str(ex)], as the f-strings of the handlers print it. *)
Definition str_exc (ex : Exception) : string :=
  match ex with
  | PyException m | ValueError m | AttributeError m | TypeError m
  | NotFound m | ServiceError m | OverflowError m | AirflowException m => m
  | KeyError k => sq +:+ k +:+ sq
  end.

(** A Python float is an IEEE 754 binary64 value; only its comparisons are
    used.  JSON integers are taken at their float value. *)
Definition float := spec_float.
Definition float_zero : float := S754_zero false.

(** A [dict] as its [items()] view, in insertion order.  A key of the rates
    mapping is a [str] or [None]. *)
Definition dict (K V : Type) := list (K * V).
Definition rates_dict := dict (option string) float.

(** ** The external world *)

Inductive Level := INFO | ERROR.

Inductive WriteDisposition := WRITE_APPEND | WRITE_TRUNCATE.
Inductive SourceFormat := CSV.

(** What [json.loads] returns. *)
#[local] Unset Elimination Schemes.
Inductive json :=
| JNull
| JBool (b : bool)
| JNum (f : float)
| JStr (s : string)
| JArr (l : list json)
| JObj (l : list (string * json)).
#[local] Set Elimination Schemes.

(** [bigquery.SchemaField(name=, field_type=, mode=)]. *)
Record SchemaField := {
  sf_name : json;
  sf_field_type : json;
  sf_mode : json
}.

Record LoadJobConfig := {
  schema : list SchemaField;
  skip_leading_rows : Z;
  source_format : SourceFormat;
  write_disposition : WriteDisposition
}.

(** The body of an HTTP response once decoded, reduced to the two members
    the code reads; [None] is a missing key. *)
Record Payload := {
  description : option string;
  rates : option rates_dict
}.

Record Response := {
  status_code : Z;
  body : Exception + Payload      (* result.json() *)
}.

(** [requests.Response.ok]: [raise_for_status] raises for 400..599. *)
Definition ok (r : Response) : bool :=
  negb ((400 <=? status_code r) && (status_code r <? 600)).

(** The calls that leave the process. *)
Inductive Request :=
| HttpGet (url : string)
| BlobUpload (name data : string)
| BlobDownload (name : string)
| ListBlobs (prefix : string)
| DeleteTable (table : string)
| LoadTableFromUri (uri table : string) (cfg : LoadJobConfig)
| FileWrite (path data : string).

Inductive Method := Fetch | Transform | Sink | Loader.

Class Environment := {
  GCS_BUCKET_ID : string;                      (* os.environ *)
  http : string -> Response;                   (* the answer of the endpoint *)
  fault : Request -> option Exception;         (* calls that raise instead *)
  clock : nat -> Z;                            (* successive datetime.now() *)
  credentials_exist : bool;                    (* os.path.exists(path) *)
  json_loads : string -> Exception + json;
  repr_float : float -> string;                (* text of a float in a CSV *)
  str_datetime : Z -> string                   (* text of a datetime in a CSV *)
}.

Record State := {
  objects : gmap string string;        (* the bucket: blob name -> content *)
  tables : gmap string (list string);  (* table -> URIs loaded, oldest first *)
  files : gmap string string;          (* local file system *)
  ticks : nat;                         (* clock readings so far *)
  log : list (Level * string);
  requests : list Request;             (* external calls issued, in order *)
  invocations : list (Method * string) (* ghost: collector methods entered *)
}.

Definition set_objects (f : gmap string string -> gmap string string) (s : State) : State :=
  {| objects := f (objects s); tables := tables s; files := files s;
     ticks := ticks s; log := log s; requests := requests s;
     invocations := invocations s |}.

Definition set_tables (f : gmap string (list string) -> gmap string (list string)) (s : State) : State :=
  {| objects := objects s; tables := f (tables s); files := files s;
     ticks := ticks s; log := log s; requests := requests s;
     invocations := invocations s |}.

Definition set_files (f : gmap string string -> gmap string string) (s : State) : State :=
  {| objects := objects s; tables := tables s; files := f (files s);
     ticks := ticks s; log := log s; requests := requests s;
     invocations := invocations s |}.

Definition set_ticks (n : nat) (s : State) : State :=
  {| objects := objects s; tables := tables s; files := files s;
     ticks := n; log := log s; requests := requests s;
     invocations := invocations s |}.

Definition add_log (e : Level * string) (s : State) : State :=
  {| objects := objects s; tables := tables s; files := files s;
     ticks := ticks s; log := log s ++ [e]; requests := requests s;
     invocations := invocations s |}.

Definition add_request (r : Request) (s : State) : State :=
  {| objects := objects s; tables := tables s; files := files s;
     ticks := ticks s; log := log s; requests := requests s ++ [r];
     invocations := invocations s |}.

Definition add_invocation (m : Method) (date : string) (s : State) : State :=
  {| objects := objects s; tables := tables s; files := files s;
     ticks := ticks s; log := log s; requests := requests s;
     invocations := invocations s ++ [(m, date)] |}.

(** ** The monad of statements: state, and exceptions that keep the state *)

Definition M (A : Type) : Type := State -> (Exception + A) * State.

Definition ret {A} (a : A) : M A := fun s => (inr a, s).
Definition raise {A} (ex : Exception) : M A := fun s => (inl ex, s).
Definition bind {A B} (m : M A) (k : A -> M B) : M B :=
  fun s => match m s with
           | (inl ex, s') => (inl ex, s')
           | (inr a, s') => k a s'
           end.

Notation "x <- m ;; k" := (bind m (fun x => k))
  (at level 100, m at next level, right associativity).
Notation "m ;;; k" := (bind m (fun _ => k))
  (at level 100, right associativity).

(** A value or an exception computed without touching the state. *)
Definition lift {A} (r : Exception + A) : M A :=
  match r with inl ex => raise ex | inr a => ret a end.

(** [try: body / except Exception as ex: handler(ex)]. *)
Definition try_except {A} (body : M A) (handler : Exception -> M A) : M A :=
  fun s => match body s with
           | (inl ex, s') => handler ex s'
           | (inr a, s') => (inr a, s')
           end.

Definition modify (f : State -> State) : M unit := fun s => (inr tt, f s).

Definition logging_info (msg : string) : M unit := modify (add_log (INFO, msg)).
Definition logging_error (msg : string) : M unit := modify (add_log (ERROR, msg)).
Definition enter (m : Method) (date : string) : M unit := modify (add_invocation m date).

(** An external call is recorded, then raises if the environment says so. *)
Definition call `{Environment} (r : Request) : M unit :=
  modify (add_request r) ;;;
  match fault r with
  | Some ex => raise ex
  | None => ret tt
  end.

(** [datetime.datetime.now()]. *)
Definition datetime_now `{Environment} : M Z :=
  fun s => (inr (clock (ticks s)), set_ticks (S (ticks s)) s).

(** ** pandas, as far as the collector uses it *)

Module pd.

(** A cell: a [str] or [None] (object dtype), a float, or a datetime. *)
Inductive cell :=
| CObj (s : option string)
| CFloat (f : float)
| CTime (t : Z).

(** A frame: the length of its index and its columns, labelled, in order. *)
Record DataFrame := {
  nrows : nat;
  columns : list (string * list cell)
}.

(** [pd.DataFrame(records, columns=['currency', 'rate'])] for a list of
    (key, value) tuples. *)
Definition from_items (records : rates_dict) : DataFrame :=
  {| nrows := length records;
     columns := [("currency", map (fun kv => CObj (fst kv)) records);
                 ("rate", map (fun kv => CFloat (snd kv)) records)] |}.

Fixpoint assoc (label : string) (cols : list (string * list cell)) : option (list cell) :=
  match cols with
  | [] => None
  | (l, v) :: rest => if String.eqb l label then Some v else assoc label rest
  end.

(** [df[label]]. *)
Definition getitem (df : DataFrame) (label : string) : Exception + list cell :=
  match assoc label (columns df) with
  | Some v => inr v
  | None => inl (KeyError label)
  end.

(** [series < 0], element by element. *)
Definition lt_zero_cell (c : cell) : Exception + bool :=
  match c with
  | CFloat f => inr (SFltb f float_zero)
  | CObj _ => inl (TypeError "'<' not supported between instances of 'str' and 'int'")
  | CTime _ => inl (TypeError "Invalid comparison between dtype=datetime64[ns] and int")
  end.

Fixpoint lt_zero (series : list cell) : Exception + list bool :=
  match series with
  | [] => inr []
  | c :: rest =>
      match lt_zero_cell c with
      | inl ex => inl ex
      | inr b => match lt_zero rest with
                 | inl ex => inl ex
                 | inr bs => inr (b :: bs)
                 end
      end
  end.

(** [series.isna()]: [None] and NaN. *)
Definition isna_cell (c : cell) : bool :=
  match c with
  | CObj None => true
  | CFloat S754_nan => true
  | _ => false
  end.

Definition isna (series : list cell) : list bool := map isna_cell series.

(** [mask.any()]. *)
Definition any (mask : list bool) : bool := existsb (fun b => b) mask.

Fixpoint replace_column (label : string) (v : list cell) (cols : list (string * list cell))
  : option (list (string * list cell)) :=
  match cols with
  | [] => None
  | (l, old) :: rest =>
      if String.eqb l label then Some ((l, v) :: rest)
      else match replace_column label v rest with
           | Some rest' => Some ((l, old) :: rest')
           | None => None
           end
  end.

(** [df[label] = scalar]: the scalar fills the column; a new label goes
    last, an existing one keeps its place. *)
Definition setitem (df : DataFrame) (label : string) (scalar : cell) : DataFrame :=
  let v := replicate (nrows df) scalar in
  {| nrows := nrows df;
     columns := match replace_column label v (columns df) with
                | Some cols => cols
                | None => columns df ++ [(label, v)]
                end |}.

Fixpoint pick (df : DataFrame) (labels : list string) : Exception + list (string * list cell) :=
  match labels with
  | [] => inr []
  | l :: rest =>
      match getitem df l with
      | inl ex => inl ex
      | inr v => match pick df rest with
                 | inl ex => inl ex
                 | inr cols => inr ((l, v) :: cols)
                 end
      end
  end.

(** [df[[l1, ..., ln]]]. *)
Definition select (df : DataFrame) (labels : list string) : Exception + DataFrame :=
  match pick df labels with
  | inl ex => inl ex
  | inr cols => inr {| nrows := nrows df; columns := cols |}
  end.

(** [list(df.columns)] and [df.at[i, label]]. *)
Definition labels (df : DataFrame) : list string := map fst (columns df).

Definition at_ (df : DataFrame) (i : nat) (label : string) : option cell :=
  match assoc label (columns df) with
  | Some v => v !! i
  | None => None
  end.

(** *** [to_csv] *)

(** The csv writer (QUOTE_MINIMAL, line terminator [\n]) quotes a field that
    holds the delimiter, the quote character or the line terminator, doubling
    the quotes inside. *)
Definition special (c : ascii) : bool :=
  (Ascii.eqb c ","%char || Ascii.eqb c "034"%char || Ascii.eqb c "010"%char)%bool.

Fixpoint needs_quote (s : string) : bool :=
  match s with
  | EmptyString => false
  | String c rest => (special c || needs_quote rest)%bool
  end.

Fixpoint double_quotes (s : string) : string :=
  match s with
  | EmptyString => EmptyString
  | String c rest =>
      if Ascii.eqb c "034"%char then String c (String c (double_quotes rest))
      else String c (double_quotes rest)
  end.

Definition csv_field (s : string) : string :=
  if needs_quote s then dq +:+ double_quotes s +:+ dq else s.

Definition csv_cell `{Environment} (c : cell) : string :=
  match c with
  | CObj (Some s) => csv_field s
  | CObj None => ""
  | CFloat S754_nan => ""
  | CFloat f => repr_float f
  | CTime t => str_datetime t
  end.

Definition row (df : DataFrame) (i : nat) : list cell :=
  map (fun col => default (CObj None) (snd col !! i)) (columns df).

(** One record: the fields joined by commas; a record that is one empty
    field is written as a pair of quotes. *)
Definition csv_line (fields : list string) : string :=
  match fields with
  | [EmptyString] => dq +:+ dq +:+ nl
  | _ => String.concat "," fields +:+ nl
  end.

(** [df.to_csv(buffer, index=index)]: the header line, then one line per
    row; with [index=True] every line starts with the index column. *)
Definition to_csv `{Environment} (df : DataFrame) (index : bool) : string :=
  let lead (x : string) := if index then [x] else [] in
  csv_line (lead "" ++ map csv_field (labels df))
  +:+ String.concat ""
        (map (fun i => csv_line (lead (pretty (Z.of_nat i)) ++ map csv_cell (row df i)))
             (seq 0 (nrows df))).

End pd.

(** ** Calendar dates, as pendulum enumerates and prints them *)

Module pendulum.

(** A date is its number of days since 1970-01-01. *)
Definition civil_from_days (z : Z) : Z * Z * Z :=
  let z := z + 719468 in
  let era := z / 146097 in
  let doe := z - era * 146097 in
  let yoe := (doe - doe / 1460 + doe / 36524 - doe / 146096) / 365 in
  let doy := doe - (365 * yoe + yoe / 4 - yoe / 100) in
  let mp := (5 * doy + 2) / 153 in
  let d := doy - (153 * mp + 2) / 5 + 1 in
  let m := if mp <? 10 then mp + 3 else mp - 9 in
  let y := yoe + era * 400 in
  (if m <=? 2 then y + 1 else y, m, d).

Definition days_from_civil (y m d : Z) : Z :=
  let y := if m <=? 2 then y - 1 else y in
  let era := y / 400 in
  let yoe := y - era * 400 in
  let doy := (153 * (if 2 <? m then m - 3 else m + 9) + 2) / 5 + d - 1 in
  let doe := yoe * 365 + yoe / 4 - yoe / 100 + doy in
  era * 146097 + doe - 719468.

(** [%0{width}d] *)
Definition zfill (width : nat) (n : Z) : string :=
  let digits := pretty n in
  String.concat "" (replicate (width - String.length digits) "0") +:+ digits.

(** [date.isoformat()] *)
Definition isoformat (day : Z) : string :=
  let '(y, m, d) := civil_from_days day in
  zfill 4 y +:+ "-" +:+ zfill 2 m +:+ "-" +:+ zfill 2 d.

(** Python's dates run from 0001-01-01 to 9999-12-31. *)
Definition min_day : Z := -719162.
Definition max_day : Z := 2932896.

Definition in_range (day : Z) : bool := (min_day <=? day) && (day <=? max_day).

(** What [pendulum.parse] returns for a date: the midnight of its day, as the
    day number. *)
Record DateTime := {
  day : Z;
  day_in_range : in_range day = true
}.

Definition out_of_range : Exception := OverflowError "date value out of range".

(** [self.add(days=n)] and [self.subtract(days=n)] on a day number: the sum
    is a date again, or the call raises. *)
Definition add (self days : Z) : Exception + Z :=
  if in_range (self + days) then inr (self + days) else inl out_of_range.

Definition subtract (self days : Z) : Exception + Z := add self (- days).

(** [Interval.range('days')]: [while op(start, end): yield start;
    start = self.start.add(days=i); i += 1], with [subtract] and [>=] when
    the interval is inverted.  The next day is computed before it is compared,
    so the generator raises when that day is no date; the list comprehension
    that consumes it then has no value. *)
Fixpoint range_loop (fuel : nat) (invert : bool) (first cur end_ i : Z)
  : Exception + list Z :=
  match fuel with
  | O => inr []
  | S fuel' =>
      if (if invert then end_ <=? cur else cur <=? end_)
      then match (if invert then subtract first i else add first i) with
           | inl ex => inl ex
           | inr next =>
               match range_loop fuel' invert first next end_ (i + 1) with
               | inl ex => inl ex
               | inr rest => inr (cur :: rest)
               end
           end
      else inr []
  end.

(** [list(pendulum.interval(start, end_).range('days'))] *)
Definition interval_range_days (start end_ : DateTime) : Exception + list Z :=
  range_loop (S (Z.abs_nat (day end_ - day start))) (day end_ <? day start)
    (day start) (day start) (day end_) 1.

End pendulum.

(** ** Calls to the services *)

Section Services.
Context `{Environment}.

(** [requests.get(url)] *)
Definition requests_get (url : string) : M Response :=
  call (HttpGet url) ;;; ret (http url).

(** [bucket.blob(name).upload_from_string(data)] *)
Definition upload_from_string (name data : string) : M unit :=
  call (BlobUpload name data) ;;;
  modify (set_objects (insert name data)).

(** [bucket.blob(name).download_as_string()] *)
Definition download_as_string (name : string) : M string :=
  call (BlobDownload name) ;;;
  fun s => match objects s !! name with
           | Some data => (inr data, s)
           | None => (inl (NotFound ("No such object: " +:+ name)), s)
           end.

(** [list(storage_client.list_blobs(bucket, prefix=prefix))], as names. *)
Definition list_blobs (prefix : string) : M (list string) :=
  call (ListBlobs prefix) ;;;
  fun s => (inr (filter (fun name => String.prefix prefix name = true)
                        (map fst (map_to_list (objects s)))), s).

(** [bigquery_client.delete_table(table, not_found_ok=True)] *)
Definition delete_table (table : string) : M unit :=
  call (DeleteTable table) ;;;
  modify (set_tables (delete table)).

(** [bigquery_client.load_table_from_uri(uri, table, job_config).result()] *)
Definition load_table_from_uri (uri table : string) (cfg : LoadJobConfig) : M unit :=
  call (LoadTableFromUri uri table cfg) ;;;
  modify (set_tables (fun t =>
    match write_disposition cfg with
    | WRITE_APPEND => <[table := (default [] (t !! table) ++ [uri])%list]> t
    | WRITE_TRUNCATE => <[table := [uri]]> t
    end)).

(** Writing a local file. *)
Definition write_file (path data : string) : M unit :=
  call (FileWrite path data) ;;;
  modify (set_files (insert path data)).

(** [for x in xs: body(x)] *)
Fixpoint for_each {A} (xs : list A) (body : A -> M unit) : M unit :=
  match xs with
  | [] => ret tt
  | x :: rest => body x ;;; for_each rest body
  end.

End Services.

(** ** The transformation both entry points share

    Lines 53-62 of [exchange_rates.py] and lines 47-57 of the operator are
    the same statements: build the two-column frame, check it, add the three
    constant columns, put the columns in order. *)

(** The two validation errors (the specification's [ValidationError]). *)
Definition rate_error : Exception :=
  ValueError ("Error value in " +:+ dq +:+ "rates" +:+ dq
              +:+ " column: value must be bigger than 0.").

Definition currency_error : Exception :=
  ValueError ("Error value in " +:+ dq +:+ "currency" +:+ dq
              +:+ " column: currency must not be null.").

Definition canonical : list string :=
  ["date"; "base"; "currency"; "rate"; "last_update"].

Definition build_frame `{Environment} (date base : string) (items : rates_dict)
  : M pd.DataFrame :=
  let df := pd.from_items items in
  rate <- lift (pd.getitem df "rate") ;;
  negative <- lift (pd.lt_zero rate) ;;
  if pd.any negative then raise rate_error else
  currency <- lift (pd.getitem df "currency") ;;
  if pd.any (pd.isna currency) then raise currency_error else
  let df := pd.setitem df "date" (pd.CObj (Some date)) in
  let df := pd.setitem df "base" (pd.CObj (Some base)) in
  now <- datetime_now ;;
  let df := pd.setitem df "last_update" (pd.CTime now) in
  lift (pd.select df canonical).

(** [payload["description"]] and [payload["rates"]] *)
Definition subscript {A} (key : string) (member : option A) : Exception + A :=
  match member with
  | Some v => inr v
  | None => inl (KeyError key)
  end.

Definition api_error (r : Response) (d : string) : string :=
  "API error " +:+ pretty (status_code r) +:+ ": " +:+ d.

(** ** [exchange_rates.py] *)

Module ExchangeRates.
Section WithEnvironment.
Context `{Environment}.

Record t := { api_key : string; base_currency : string }.

Definition __init__ (api_key : string) : t :=
  {| api_key := api_key; base_currency := "USD" |}.

Definition url (self : t) (date : string) : string :=
  "https://openexchangerates.org/api/historical/" +:+ date
  +:+ ".json?app_id=" +:+ api_key self +:+ "&base=" +:+ base_currency self.

(** The [try] block of [get_data]. *)
Definition get_data_try (self : t) (date : string) : M (option rates_dict) :=
  logging_info ("Trying to get an exchange rates by " +:+ date +:+ "...") ;;;
  result <- requests_get (url self date) ;;
  if negb (ok result) then
    payload <- lift (body result) ;;
    d <- lift (subscript "description" (description payload)) ;;
    raise (PyException (api_error result d))
  else
    payload <- lift (body result) ;;
    r <- lift (subscript "rates" (rates payload)) ;;
    ret (Some r).

Definition get_data (self : t) (date : string) : M (option rates_dict) :=
  enter Fetch date ;;;
  try_except (get_data_try self date)
    (fun ex =>
       logging_error ("Unable to get data from API by " +:+ date +:+ ": " +:+ str_exc ex) ;;;
       ret None).

(** [rates.items()]; [rates] is [None] when [get_data] returned nothing. *)
Definition items (rates : option rates_dict) : Exception + rates_dict :=
  match rates with
  | Some r => inr r
  | None => inl (AttributeError "'NoneType' object has no attribute 'items'")
  end.

(** The [try] block of [process_data]. *)
Definition process_data_try (self : t) (date : string) (rates : option rates_dict)
  : M (option pd.DataFrame) :=
  logging_info ("Processing data by date " +:+ date) ;;;
  records <- lift (items rates) ;;
  df <- build_frame date (base_currency self) records ;;
  ret (Some df).

Definition process_data (self : t) (date : string) (rates : option rates_dict)
  : M (option pd.DataFrame) :=
  enter Transform date ;;;
  try_except (process_data_try self date rates)
    (fun ex =>
       logging_error ("Error processing data: " +:+ str_exc ex) ;;;
       ret None).

Definition blob_name (date : string) : string :=
  "data/" +:+ date +:+ "/exchange_rates_" +:+ date +:+ ".csv".

(** [data.to_csv(string_buffer, index=False)]; [data] is [None] when
    [process_data] returned nothing. *)
Definition data_to_csv (data : option pd.DataFrame) : Exception + string :=
  match data with
  | Some df => inr (pd.to_csv df false)
  | None => inl (AttributeError "'NoneType' object has no attribute 'to_csv'")
  end.

(** The [try] block of [load_file_to_bucket]. *)
Definition load_file_to_bucket_try (date : string) (data : option pd.DataFrame) : M unit :=
  text <- lift (data_to_csv data) ;;
  upload_from_string (blob_name date) text ;;;
  logging_info ("Upload downloaded report -> " +:+ blob_name date).

Definition load_file_to_bucket (date : string) (data : option pd.DataFrame) : M unit :=
  enter Sink date ;;;
  try_except (load_file_to_bucket_try date data)
    (fun ex => logging_error (" Error loading data to bucket: " +:+ str_exc ex)).

(** [for field in schema_fields] *)
Definition iterate (j : json) : Exception + list json :=
  match j with
  | JArr l => inr l
  | JObj kv => inr (map (fun p => JStr (fst p)) kv)
  | JStr s => inr (map (fun c => JStr (String c EmptyString)) (list_ascii_of_string s))
  | JNull => inl (TypeError "'NoneType' object is not iterable")
  | JBool _ => inl (TypeError "'bool' object is not iterable")
  | JNum _ => inl (TypeError "'float' object is not iterable")
  end.

Fixpoint lookup_key (key : string) (kv : list (string * json)) : option json :=
  match kv with
  | [] => None
  | (k, v) :: rest => if String.eqb k key then Some v else lookup_key key rest
  end.

(** [field[key]] *)
Definition field_get (field : json) (key : string) : Exception + json :=
  match field with
  | JObj kv => subscript key (lookup_key key kv)
  | JStr _ => inl (TypeError "string indices must be integers")
  | JArr _ => inl (TypeError "list indices must be integers or slices, not str")
  | JNull => inl (TypeError "'NoneType' object is not subscriptable")
  | JBool _ => inl (TypeError "'bool' object is not subscriptable")
  | JNum _ => inl (TypeError "'float' object is not subscriptable")
  end.

Definition schema_field (field : json) : Exception + SchemaField :=
  match field_get field "name" with
  | inl ex => inl ex
  | inr n =>
      match field_get field "type" with
      | inl ex => inl ex
      | inr ty =>
          match field_get field "mode" with
          | inl ex => inl ex
          | inr m => inr {| sf_name := n; sf_field_type := ty; sf_mode := m |}
          end
      end
  end.

Fixpoint schema_fields (fields : list json) : Exception + list SchemaField :=
  match fields with
  | [] => inr []
  | f :: rest =>
      match schema_field f with
      | inl ex => inl ex
      | inr sf => match schema_fields rest with
                  | inl ex => inl ex
                  | inr sfs => inr (sf :: sfs)
                  end
      end
  end.

Definition build_schema (j : json) : Exception + list SchemaField :=
  match iterate j with
  | inl ex => inl ex
  | inr fields => schema_fields fields
  end.

Definition schema_blob : string := "schemes/exchange_rates_schema.json".

(** [date.replace('-', '')] *)
Fixpoint strip_dashes (date : string) : string :=
  match date with
  | EmptyString => EmptyString
  | String c rest =>
      if Ascii.eqb c "-"%char then strip_dashes rest
      else String c (strip_dashes rest)
  end.

Definition bq_table (date : string) : string :=
  "exchange_rates.exchange_rates_" +:+ strip_dashes date.

Definition gs_uri (name : string) : string :=
  "gs://" +:+ GCS_BUCKET_ID +:+ "/" +:+ name.

Definition job_config (schema : list SchemaField) : LoadJobConfig :=
  {| schema := schema; skip_leading_rows := 1; source_format := CSV;
     write_disposition := WRITE_APPEND |}.

(** No handler here: whatever a call raises leaves the method. *)
Definition from_gcs_to_biguery (date : string) : M unit :=
  enter Loader date ;;;
  logging_info ("Uploading file from GCS to BQ by " +:+ date +:+ "...") ;;;
  text <- download_as_string schema_blob ;;
  fields <- lift (json_loads text) ;;
  schema <- lift (build_schema fields) ;;
  let job_config := job_config schema in
  blobs <- list_blobs ("data/" +:+ date +:+ "/") ;;
  if (0 <? length blobs)%nat then
    delete_table (bq_table date) ;;;
    for_each blobs (fun blob =>
      load_table_from_uri (gs_uri blob) (bq_table date) job_config ;;;
      logging_info ("Upload " +:+ gs_uri blob +:+ " into BQ table -> " +:+ bq_table date))
  else ret tt.

Definition get_gcp_clients : M unit :=
  if credentials_exist then ret tt
  else raise (PyException
    ("BigQuery credentials not found. Please, specify the environment variable "
     +:+ dq +:+ "GOOGLE_PLAY_CREDENTIALS" +:+ dq
     +:+ " or put the credentials file by path "
     +:+ dq +:+ "credentials/google-cloud-credentials.json" +:+ dq)).

(** One turn of the loop of [__main__]. *)
Definition collect (rates_collector : t) (date : string) : M unit :=
  rates <- get_data rates_collector date ;;
  processed_data <- process_data rates_collector date rates ;;
  load_file_to_bucket date processed_data ;;;
  from_gcs_to_biguery date.

(** [__main__], from the parsed [start_date] and [end_date] on.  The two
    flags are date strings; [pendulum.parse] turns each into the midnight of
    its day.  The list of dates is built, by a comprehension over the range,
    before anything else is done. *)
Definition main (app_id : string) (start_date end_date : pendulum.DateTime) : M unit :=
  days <- lift (pendulum.interval_range_days start_date end_date) ;;
  let dates := map pendulum.isoformat days in
  get_gcp_clients ;;;
  let rates_collector := __init__ app_id in
  for_each dates (collect rates_collector).

End WithEnvironment.
End ExchangeRates.

(** ** [airflow/include/exchange_api_operator.py] *)

Module ExchangeApiOperator.
Section WithEnvironment.
Context `{Environment}.

Record t := {
  api_key : string;
  date : string;
  base_currency : string;
  folder_path : string
}.

Definition __init__ (api_key date folder_path : string) : t :=
  {| api_key := api_key; date := date; base_currency := "USD";
     folder_path := folder_path |}.

Definition url (self : t) : string :=
  "https://openexchangerates.org/api/historical/" +:+ date self
  +:+ ".json?app_id=" +:+ api_key self +:+ "&base=" +:+ base_currency self.

Definition get_data (self : t) : M Response :=
  result <- requests_get (url self) ;;
  if negb (ok result) then
    payload <- lift (body result) ;;
    d <- lift (subscript "description" (description payload)) ;;
    raise (AirflowException (api_error result d))
  else ret result.

Definition ends_with_slash (s : string) : bool :=
  match String.rev s with
  | String c _ => Ascii.eqb c "/"%char
  | EmptyString => false
  end.

(** [os.path.join(folder, name)] for a relative [name]. *)
Definition os_path_join (folder name : string) : string :=
  if (String.eqb folder "" || ends_with_slash folder)%bool
  then folder +:+ name
  else folder +:+ "/" +:+ name.

Definition file_path (self : t) : string :=
  os_path_join (folder_path self) ("exchange_rates_" +:+ date self +:+ ".csv").

(** The [try] block of [process_data]. *)
Definition process_data_try (self : t) (result : Response) : M string :=
  payload <- lift (body result) ;;
  data <- lift (subscript "rates" (rates payload)) ;;
  df <- build_frame (date self) (base_currency self) data ;;
  write_file (file_path self) (pd.to_csv df false) ;;;
  ret (file_path self).

Definition process_data (self : t) (result : Response) : M string :=
  logging_info "Process data." ;;;
  try_except (process_data_try self result)
    (fun ex => raise (AirflowException ("Error processing data: " +:+ str_exc ex))).

Definition execute (self : t) : M string :=
  logging_info ("Get exchange rates by " +:+ date self +:+ ".") ;;;
  data <- get_data self ;;
  process_data self data.

End WithEnvironment.
End ExchangeApiOperator.

(** ** Vocabulary of the statements *)

(** [rate < 0] and [rate >= 0] on a float; NaN is neither. *)
Definition negative (kv : option string * float) : bool := SFltb (snd kv) float_zero.
Definition nonnegative (kv : option string * float) : bool := SFleb float_zero (snd kv).
Definition zero_rate (kv : option string * float) : bool := SFeqb (snd kv) float_zero.

Definition null_key (kv : option string * float) : bool :=
  match fst kv with None => true | Some _ => false end.

Definition nonempty_key (kv : option string * float) : Prop :=
  exists k, fst kv = Some k /\ k <> "".

Definition null_or_empty_key (kv : option string * float) : Prop :=
  fst kv = None \/ fst kv = Some "".

(** The record set of a date: one row per entry, in the mapping's order. *)
Definition record_set (date base : string) (now : Z) (items : rates_dict) : pd.DataFrame :=
  let n := length items in
  {| pd.nrows := n;
     pd.columns :=
       [("date", replicate n (pd.CObj (Some date)));
        ("base", replicate n (pd.CObj (Some base)));
        ("currency", map (fun kv => pd.CObj (fst kv)) items);
        ("rate", map (fun kv => pd.CFloat (snd kv)) items);
        ("last_update", replicate n (pd.CTime now))] |}.

(** The four collector methods, in the order the loop calls them. *)
Definition pipeline (date : string) : list (Method * string) :=
  [(Fetch, date); (Transform, date); (Sink, date); (Loader, date)].

(** The reads and BigQuery calls of the loader. *)
Definition loader_request (r : Request) : bool :=
  match r with
  | BlobDownload _ | ListBlobs _ | DeleteTable _ | LoadTableFromUri _ _ _ => true
  | HttpGet _ | BlobUpload _ _ | FileWrite _ _ => false
  end.

(** The names under a prefix, in the order [list_blobs] returns them. *)
Definition listing (prefix : string) (s : State) : list string :=
  filter (fun name => String.prefix prefix name = true) (map fst (map_to_list (objects s))).

(** The state once [process_data] has been entered and has logged its line. *)
Definition entered_transform (date : string) (s : State) : State :=
  add_log (INFO, "Processing data by date " +:+ date) (add_invocation Transform date s).

Definition processing_error (ex : Exception) : string :=
  "Error processing data: " +:+ str_exc ex.

(** The state once [get_data] has been entered, has logged its line and has
    sent its request. *)
Definition fetching (c : ExchangeRates.t) (date : string) (s : State) : State :=
  add_request (HttpGet (ExchangeRates.url c date))
    (add_log (INFO, "Trying to get an exchange rates by " +:+ date +:+ "...")
       (add_invocation Fetch date s)).

Definition fetch_error (date : string) (ex : Exception) : string :=
  "Unable to get data from API by " +:+ date +:+ ": " +:+ str_exc ex.

(** The state once [load_file_to_bucket] has been entered and has sent
    [text] to the bucket. *)
Definition uploading (date text : string) (s : State) : State :=
  add_request (BlobUpload (ExchangeRates.blob_name date) text) (add_invocation Sink date s).

Definition sink_error (ex : Exception) : string :=
  " Error loading data to bucket: " +:+ str_exc ex.

(** The sink fails when it is handed nothing or when its upload raises. *)
Definition sink_failed `{Environment} (date : string) (data : option pd.DataFrame) : Prop :=
  data = None
  \/ exists df ex, data = Some df
       /\ fault (BlobUpload (ExchangeRates.blob_name date) (pd.to_csv df false)) = Some ex.

(** What can go wrong for a date before the loader runs: nothing fetched,
    nothing transformed, or a sink that fails. *)
Definition collection_failed `{Environment} (date : string)
    (rates : option rates_dict) (data : option pd.DataFrame) : Prop :=
  rates = None \/ data = None \/ sink_failed date data.

(** The schema object is in the bucket, decodes, and yields [sch]. *)
Definition schema_available `{Environment} (sch : list SchemaField) (s : State) : Prop :=
  exists text j,
    objects s !! ExchangeRates.schema_blob = Some text
    /\ json_loads text = inr j
    /\ ExchangeRates.build_schema j = inr sch.

(** None of the loader's reads and BigQuery calls raises. *)
Definition loader_calls_succeed `{Environment} : Prop :=
  forall r, loader_request r = true -> fault r = None.

Definition date_prefix (date : string) : string := "data/" +:+ date +:+ "/".

(** The append job the loader issues for a blob of a date. *)
Definition load_job `{Environment} (date : string) (sch : list SchemaField) (blob : string)
  : Request :=
  LoadTableFromUri (ExchangeRates.gs_uri blob) (ExchangeRates.bq_table date)
    {| schema := sch; skip_leading_rows := 1; source_format := CSV;
       write_disposition := WRITE_APPEND |}.

Definition loaded_line `{Environment} (date blob : string) : Level * string :=
  (INFO, "Upload " +:+ ExchangeRates.gs_uri blob +:+ " into BQ table -> "
         +:+ ExchangeRates.bq_table date).

(** ** Sample data *)

Definition float_one : float := S754_finite false 4503599627370496 (-52).
Definition float_minus_one : float := S754_finite true 4503599627370496 (-52).

Definition sample_schema : json :=
  JArr [JObj [("name", JStr "date"); ("type", JStr "DATE"); ("mode", JStr "NULLABLE")];
        JObj [("name", JStr "rate"); ("type", JStr "FLOAT"); ("mode", JStr "NULLABLE")]].

(** Stands for the JSON text of [sample_schema]. *)
Definition sample_schema_text : string := "[date DATE NULLABLE, rate FLOAT NULLABLE]".

(** An endpoint that answers every request with [answer], and services
    that never raise. *)
Definition sample_env (answer : Response) : Environment :=
  {| GCS_BUCKET_ID := "rates-bucket";
     http := fun _ => answer;
     fault := fun _ => None;
     clock := fun n => 1720051200 + Z.of_nat n;
     credentials_exist := true;
     json_loads := fun text =>
       if String.eqb text sample_schema_text then inr sample_schema
       else inl (ValueError "Expecting value: line 1 column 1 (char 0)");
     repr_float := fun f => if SFeqb f float_zero then "0.0" else
                            if SFltb f float_zero then "-1.0" else "1.0";
     str_datetime := fun t => pretty t |}.

Definition answer_of (status : Z) (d : option string) (r : option rates_dict) : Response :=
  {| status_code := status; body := inr {| description := d; rates := r |} |}.

Definition two_rates : rates_dict := [(Some "EUR", float_one); (Some "GBP", float_one)].

Definition zero_and_negative : rates_dict :=
  [(Some "AAA", float_zero); (Some "BBB", float_minus_one)].

Definition empty_key : rates_dict := [(Some "", float_one)].
Definition null_key_rates : rates_dict := [(None, float_one)].
Definition negative_rates : rates_dict := [(Some "XXX", float_minus_one)].
Definition zero_rates : rates_dict := [(Some "AAA", float_zero); (Some "EUR", float_one)].

Definition good_answer : Response := answer_of 200 None (Some two_rates).
Definition denied_answer : Response := answer_of 403 (Some "Invalid App ID") None.

Definition negative_answer : Response := answer_of 200 None (Some negative_rates).

Definition sample_fields : list SchemaField :=
  [{| sf_name := JStr "date"; sf_field_type := JStr "DATE"; sf_mode := JStr "NULLABLE" |};
   {| sf_name := JStr "rate"; sf_field_type := JStr "FLOAT"; sf_mode := JStr "NULLABLE" |}].

(** A bucket that holds the schema and nothing else; no table yet. *)
Definition fresh_state : State :=
  {| objects := {[ "schemes/exchange_rates_schema.json" := sample_schema_text ]};
     tables := ∅; files := ∅; ticks := 0%nat; log := []; requests := [];
     invocations := [] |}.

Definition stale_table : gmap string (list string) :=
  {[ "exchange_rates.exchange_rates_20240704" := ["gs://rates-bucket/data/2024-07-04/gone.csv"] ]}.

(** The schema only, and a table left by an earlier run. *)
Definition stale_state : State :=
  {| objects := {[ "schemes/exchange_rates_schema.json" := sample_schema_text ]};
     tables := stale_table; files := ∅; ticks := 0%nat; log := []; requests := [];
     invocations := [] |}.

(** The schema, two objects under the prefix of 2024-07-04, and the table. *)
Definition two_blob_state : State :=
  {| objects := {[ "schemes/exchange_rates_schema.json" := sample_schema_text;
                   "data/2024-07-04/a.csv" := "date,base,currency,rate,last_update";
                   "data/2024-07-04/b.csv" := "date,base,currency,rate,last_update" ]};
     tables := stale_table; files := ∅; ticks := 0%nat; log := []; requests := [];
     invocations := [] |}.

(** Some dates. *)
Definition date_2024_07_01 : pendulum.DateTime :=
  {| pendulum.day := 19905; pendulum.day_in_range := eq_refl |}.
Definition date_2024_07_03 : pendulum.DateTime :=
  {| pendulum.day := 19907; pendulum.day_in_range := eq_refl |}.
Definition date_0001_01_01 : pendulum.DateTime :=
  {| pendulum.day := pendulum.min_day; pendulum.day_in_range := eq_refl |}.
Definition date_0001_01_02 : pendulum.DateTime :=
  {| pendulum.day := pendulum.min_day + 1; pendulum.day_in_range := eq_refl |}.
Definition date_9999_12_30 : pendulum.DateTime :=
  {| pendulum.day := pendulum.max_day - 1; pendulum.day_in_range := eq_refl |}.
Definition date_9999_12_31 : pendulum.DateTime :=
  {| pendulum.day := pendulum.max_day; pendulum.day_in_range := eq_refl |}.

(** Nothing in the bucket, not even the schema. *)
Definition empty_state : State :=
  {| objects := ∅; tables := ∅; files := ∅; ticks := 0%nat; log := []; requests := [];
     invocations := [] |}.

(** ** [airflow/dags/exchange_rates_dag.py]: what the tasks are handed *)

Module exchange_rates_dag.

(** The templated arguments, with [{{ ds }}] rendered as [ds]. *)
Definition upload_dst (ds : string) : string := "data/" +:+ ds +:+ "/".

Definition source_objects (ds : string) : string :=
  "data/" +:+ ds +:+ "/exchange_rates_" +:+ ds +:+ ".csv".

Definition destination_project_dataset_table (ds : string) : string :=
  "exchange_rates.exchange_rates_" +:+ ds.

Definition schema_object : string := "schemes/exchange_rates_schema.json".

(** The task [collect_data]. *)
Definition collect_data (api_key ds folder_path : string) : ExchangeApiOperator.t :=
  ExchangeApiOperator.__init__ api_key ds folder_path.

End exchange_rates_dag.

(** ** Further vocabulary *)

(** The exception raised while reading [result.json()["description"]], if any. *)
Definition unreadable_description (r : Response) : option Exception :=
  match body r with
  | inl ex => Some ex
  | inr payload =>
      match description payload with
      | Some _ => None
      | None => Some (KeyError "description")
      end
  end.

Fixpoint has_dash (s : string) : bool :=
  match s with
  | EmptyString => false
  | String c rest => (Ascii.eqb c "-"%char || has_dash rest)%bool
  end.

(** The name of the CSV file inside the operator's folder. *)
Definition csv_file_name (date : string) : string := "exchange_rates_" +:+ date +:+ ".csv".

(** The header line of a record set's CSV. *)
Definition header_line : string := "date,base,currency,rate,last_update" +:+ nl.

Definition nan_rates : rates_dict := [(Some "EUR", S754_nan); (Some "GBP", float_one)].

(** The dates a run of the script works through: those of its range, none
    when the range cannot be enumerated. *)
Definition range_dates (start_date end_date : pendulum.DateTime) : list string :=
  match pendulum.interval_range_days start_date end_date with
  | inr days => map pendulum.isoformat days
  | inl _ => []
  end.

Definition not_modified_answer : Response := answer_of 304 None (Some two_rates).
Definition no_rates_answer : Response := answer_of 200 None None.
Definition bare_denied_answer : Response := answer_of 500 None None.
Definition empty_answer : Response := answer_of 200 None (Some []).

(** As [sample_env], but every load job raises. *)
Definition failing_load_env (answer : Response) : Environment :=
  {| GCS_BUCKET_ID := "rates-bucket";
     http := fun _ => answer;
     fault := fun r => match r with
                       | LoadTableFromUri _ _ _ => Some (ServiceError "load job failed")
                       | _ => None
                       end;
     clock := fun n => 1720051200 + Z.of_nat n;
     credentials_exist := true;
     json_loads := fun text =>
       if String.eqb text sample_schema_text then inr sample_schema
       else inl (ValueError "Expecting value: line 1 column 1 (char 0)");
     repr_float := fun f => "1.0";
     str_datetime := fun t => pretty t |}.

(** As [sample_env], but the download of the schema raises. *)
Definition failing_download_env (answer : Response) : Environment :=
  {| GCS_BUCKET_ID := "rates-bucket";
     http := fun _ => answer;
     fault := fun r => match r with
                       | BlobDownload _ => Some (ServiceError "download failed")
                       | _ => None
                       end;
     clock := fun n => 1720051200 + Z.of_nat n;
     credentials_exist := true;
     json_loads := fun text =>
       if String.eqb text sample_schema_text then inr sample_schema
       else inl (ValueError "Expecting value: line 1 column 1 (char 0)");
     repr_float := fun f => "1.0";
     str_datetime := fun t => pretty t |}.

(** As [sample_env], but without the credentials file. *)
Definition no_credentials_env (answer : Response) : Environment :=
  {| GCS_BUCKET_ID := "rates-bucket";
     http := fun _ => answer;
     fault := fun _ => None;
     clock := fun n => 1720051200 + Z.of_nat n;
     credentials_exist := false;
     json_loads := fun _ => inr sample_schema;
     repr_float := fun f => "1.0";
     str_datetime := fun t => pretty t |}.

(** * Properties *)

(** ** Running statements *)

Lemma bind_eq {A B} (m : M A) (k : A -> M B) (s : State) :
  bind m k s =
    match m s with
    | (inl ex, s') => (inl ex, s')
    | (inr a, s') => k a s'
    end.
Proof. reflexivity. Qed.

Lemma for_each_cons {A} (x : A) (xs : list A) (body : A -> M unit) (s : State) :
  for_each (x :: xs) body s =
    match body x s with
    | (inl ex, s') => (inl ex, s')
    | (inr _, s') => for_each xs body s'
    end.
Proof. reflexivity. Qed.


(** ** The transformation *)

Section TransformFacts.
Context `{Environment}.

Lemma lt_zero_rates (items : rates_dict) :
  pd.lt_zero (map (fun kv => pd.CFloat (snd kv)) items) = inr (map negative items).
Proof.
  induction items as [|kv items IH]; simpl; [reflexivity|].
  rewrite IH. reflexivity.
Qed.

Lemma any_map {A} (f : A -> bool) (l : list A) :
  pd.any (map f l) = existsb f l.
Proof.
  unfold pd.any. induction l as [|a l IH]; simpl; [reflexivity|].
  rewrite IH. reflexivity.
Qed.

Lemma isna_currency (items : rates_dict) :
  pd.isna (map (fun kv => pd.CObj (fst kv)) items) = map null_key items.
Proof.
  unfold pd.isna. rewrite map_map. apply map_ext.
  intros [[k|] f]; reflexivity.
Qed.

(** What [build_frame] does, case by case. *)
Lemma build_frame_spec (date base : string) (items : rates_dict) (s : State) :
  build_frame date base items s =
    if existsb negative items then (inl rate_error, s)
    else if existsb null_key items then (inl currency_error, s)
    else (inr (record_set date base (clock (ticks s)) items),
          set_ticks (S (ticks s)) s).
Proof.
  unfold build_frame, bind, lift. simpl.
  rewrite lt_zero_rates. simpl. rewrite any_map.
  destruct (existsb negative items); [reflexivity|].
  simpl. rewrite isna_currency, any_map.
  destruct (existsb null_key items); reflexivity.
Qed.

Lemma nonnegative_not_negative (kv : option string * float) :
  nonnegative kv = true -> negative kv = false.
Proof.
  unfold nonnegative, negative, SFleb, SFltb, float_zero.
  destruct kv as [k [sg|sg| |sg m e]]; simpl; try reflexivity; try discriminate;
    destruct sg; simpl; congruence.
Qed.

Lemma zero_not_negative (kv : option string * float) :
  zero_rate kv = true -> negative kv = false.
Proof.
  unfold zero_rate, negative, SFeqb, SFltb, float_zero.
  destruct kv as [k [sg|sg| |sg m e]]; simpl; try reflexivity; try discriminate;
    destruct sg; simpl; congruence.
Qed.

Lemma nonempty_not_null (kv : option string * float) :
  nonempty_key kv -> null_key kv = false.
Proof. intros [k [Hk _]]. unfold null_key. rewrite Hk. reflexivity. Qed.

Lemma existsb_false_Forall {A} (f : A -> bool) (l : list A) :
  Forall (fun a => f a = false) l -> existsb f l = false.
Proof.
  induction 1 as [|a l Ha _ IH]; simpl; [reflexivity|].
  rewrite Ha, IH. reflexivity.
Qed.

Lemma existsb_true_Exists {A} (f : A -> bool) (l : list A) :
  Exists (fun a => f a = true) l -> existsb f l = true.
Proof.
  induction 1 as [a l Ha|a l _ IH]; simpl.
  - rewrite Ha. reflexivity.
  - rewrite IH. apply orb_true_r.
Qed.

Lemma no_negative (items : rates_dict) :
  Forall (fun kv => nonnegative kv = true) items -> existsb negative items = false.
Proof.
  intros Hall. apply existsb_false_Forall.
  eapply Forall_impl; [exact Hall|]. apply nonnegative_not_negative.
Qed.

Lemma no_null (items : rates_dict) :
  Forall nonempty_key items -> existsb null_key items = false.
Proof.
  intros Hall. apply existsb_false_Forall.
  eapply Forall_impl; [exact Hall|]. apply nonempty_not_null.
Qed.

Lemma lookup_map {A B} (f : A -> B) (l : list A) (i : nat) (a : A) :
  l !! i = Some a -> map f l !! i = Some (f a).
Proof.
  revert i. induction l as [|x l IH]; intros [|i] Hi; simpl in *;
    try discriminate.
  - injection Hi as ->. reflexivity.
  - apply IH. exact Hi.
Qed.

(** The shape of a record set. *)
Lemma record_set_nrows date base now (items : rates_dict) :
  pd.nrows (record_set date base now items) = length items.
Proof. reflexivity. Qed.

Lemma record_set_labels date base now (items : rates_dict) :
  pd.labels (record_set date base now items) = canonical.
Proof. reflexivity. Qed.

Lemma record_set_constant date base now (items : rates_dict) (i : nat) :
  (i < length items)%nat ->
  pd.at_ (record_set date base now items) i "date" = Some (pd.CObj (Some date))
  /\ pd.at_ (record_set date base now items) i "base" = Some (pd.CObj (Some base))
  /\ pd.at_ (record_set date base now items) i "last_update" = Some (pd.CTime now).
Proof.
  intros Hi. unfold pd.at_. simpl.
  repeat split; apply lookup_replicate_2; exact Hi.
Qed.

Lemma record_set_entry date base now (items : rates_dict) (i : nat) kv :
  items !! i = Some kv ->
  pd.at_ (record_set date base now items) i "currency" = Some (pd.CObj (fst kv))
  /\ pd.at_ (record_set date base now items) i "rate" = Some (pd.CFloat (snd kv)).
Proof.
  intros Hi. unfold pd.at_. simpl.
  split.
  - exact (lookup_map (fun kv => pd.CObj (fst kv)) _ _ _ Hi).
  - exact (lookup_map (fun kv => pd.CFloat (snd kv)) _ _ _ Hi).
Qed.

End TransformFacts.

(** ** The two [process_data] methods *)

Section ProcessDataFacts.
Context `{Environment}.

Lemma process_data_unfold (c : ExchangeRates.t) (date : string)
    (rates : option rates_dict) (s : State) :
  ExchangeRates.process_data c date rates s =
    match ExchangeRates.items rates with
    | inl ex => (inr None, add_log (ERROR, processing_error ex) (entered_transform date s))
    | inr records =>
        match build_frame date (ExchangeRates.base_currency c) records (entered_transform date s) with
        | (inl ex, s') => (inr None, add_log (ERROR, processing_error ex) s')
        | (inr df, s') => (inr (Some df), s')
        end
    end.
Proof.
  unfold ExchangeRates.process_data, ExchangeRates.process_data_try, try_except,
    bind, enter, logging_info, logging_error, modify, lift, ret, raise. simpl.
  destruct (ExchangeRates.items rates) as [ex|records]; simpl; [reflexivity|].
  fold (entered_transform date s).
  destruct (build_frame _ _ _ _) as [[ex|df] s']; reflexivity.
Qed.

Lemma operator_process_data_unfold (op : ExchangeApiOperator.t) (result : Response)
    (payload : Payload) (items : rates_dict) (s : State) :
  body result = inr payload -> rates payload = Some items ->
  ExchangeApiOperator.process_data op result s =
    match build_frame (ExchangeApiOperator.date op) (ExchangeApiOperator.base_currency op)
            items (add_log (INFO, "Process data.") s) with
    | (inl ex, s') => (inl (AirflowException (processing_error ex)), s')
    | (inr df, s') =>
        let path := ExchangeApiOperator.file_path op in
        let text := pd.to_csv df false in
        match fault (FileWrite path text) with
        | Some ex => (inl (AirflowException (processing_error ex)),
                      add_request (FileWrite path text) s')
        | None => (inr path, set_files (insert path text)
                               (add_request (FileWrite path text) s'))
        end
    end.
Proof.
  intros Hbody Hrates.
  unfold ExchangeApiOperator.process_data, ExchangeApiOperator.process_data_try,
    try_except, bind, logging_info, modify, lift, ret, raise. simpl.
  rewrite Hbody. simpl. rewrite Hrates. simpl.
  destruct (build_frame _ _ _ _) as [[ex|df] s']; [reflexivity|].
  unfold write_file, call, bind, modify, ret, raise. simpl.
  destruct (fault _); reflexivity.
Qed.

End ProcessDataFacts.

(** C1. For a mapping whose rates are all [>= 0] and whose keys are all
    non-empty strings, the transformer yields a record set with one row per
    entry, in the mapping's order, whose columns are exactly date, base,
    currency, rate, last_update, and whose rows all carry the call's date, its
    base currency and the time of processing.  The batch [process_data]
    returns that record set; the operator's [process_data] writes it as CSV to
    its file and returns the path. *)
Theorem transform_valid_mapping `{Environment}
    (date base : string) (items : rates_dict) (s : State) :
  Forall (fun kv => nonnegative kv = true) items ->
  Forall nonempty_key items ->
  exists df : pd.DataFrame,
    pd.nrows df = length items
    /\ pd.labels df = ["date"; "base"; "currency"; "rate"; "last_update"]
    /\ (forall i, (i < length items)%nat ->
          pd.at_ df i "date" = Some (pd.CObj (Some date))
          /\ pd.at_ df i "base" = Some (pd.CObj (Some base))
          /\ pd.at_ df i "last_update" = Some (pd.CTime (clock (ticks s))))
    /\ (forall i kv, items !! i = Some kv ->
          pd.at_ df i "currency" = Some (pd.CObj (fst kv))
          /\ pd.at_ df i "rate" = Some (pd.CFloat (snd kv)))
    /\ (forall c : ExchangeRates.t,
          ExchangeRates.base_currency c = base ->
          exists s', ExchangeRates.process_data c date (Some items) s = (inr (Some df), s')
                     /\ log s' = log s ++ [(INFO, "Processing data by date " +:+ date)])
    /\ (forall (op : ExchangeApiOperator.t) (result : Response) (payload : Payload),
          ExchangeApiOperator.date op = date ->
          ExchangeApiOperator.base_currency op = base ->
          body result = inr payload -> rates payload = Some items ->
          fault (FileWrite (ExchangeApiOperator.file_path op) (pd.to_csv df false)) = None ->
          exists s', ExchangeApiOperator.process_data op result s
                       = (inr (ExchangeApiOperator.file_path op), s')
                     /\ files s' = <[ExchangeApiOperator.file_path op := pd.to_csv df false]> (files s)).
Proof.
  intros Hrates Hkeys.
  exists (record_set date base (clock (ticks s)) items).
  split; [apply record_set_nrows|].
  split; [apply record_set_labels|].
  split; [intros i Hi; apply record_set_constant; exact Hi|].
  split; [intros i kv Hi; apply record_set_entry; exact Hi|].
  split.
  - intros c Hbase. rewrite process_data_unfold. simpl.
    rewrite build_frame_spec, (no_negative _ Hrates), (no_null _ Hkeys), Hbase.
    eexists. split; reflexivity.
  - intros op result payload Hdate Hbase Hbody Hitems Hfault.
    rewrite (operator_process_data_unfold op result payload items s Hbody Hitems).
    rewrite build_frame_spec, (no_negative _ Hrates), (no_null _ Hkeys), Hdate, Hbase.
    simpl. simpl in Hfault. rewrite Hfault.
    eexists. split; reflexivity.
Qed.

Lemma transform_valid_mapping_witness :
  Forall (fun kv => nonnegative kv = true) two_rates
  /\ Forall nonempty_key two_rates
  /\ exists df : pd.DataFrame,
       pd.nrows df = 2%nat
       /\ fst (@ExchangeRates.process_data (sample_env good_answer)
                 (ExchangeRates.__init__ "app") "2024-07-04" (Some two_rates) fresh_state)
          = inr (Some df).
Proof.
  assert (Hr : Forall (fun kv => nonnegative kv = true) two_rates)
    by (repeat constructor).
  assert (Hk : Forall nonempty_key two_rates)
    by (repeat constructor; eexists; (split; [reflexivity|discriminate])).
  split; [exact Hr|]. split; [exact Hk|].
  destruct (@transform_valid_mapping (sample_env good_answer) "2024-07-04" "USD"
              two_rates fresh_state Hr Hk)
    as [df [Hn [_ [_ [_ [Hcli _]]]]]].
  exists df. split; [exact Hn|].
  destruct (Hcli (ExchangeRates.__init__ "app") eq_refl) as [s' [Hrun _]].
  rewrite Hrun. reflexivity.
Defined.

(** C2. A mapping with at least one strictly negative rate makes the
    validation raise its [ValueError] about rates, whatever else the mapping
    holds.  The batch [process_data] catches it, logs it and returns [None];
    the operator's [process_data] re-raises it as an [AirflowException]
    before any file is written.  In both forms only the log changes. *)
Theorem negative_rate_rejected `{Environment}
    (date base : string) (items : rates_dict) (s : State) :
  Exists (fun kv => negative kv = true) items ->
  (exists msg, rate_error = ValueError msg)
  /\ build_frame date base items s = (inl rate_error, s)
  /\ (forall c : ExchangeRates.t,
        ExchangeRates.process_data c date (Some items) s
        = (inr None,
           add_log (ERROR, processing_error rate_error) (entered_transform date s)))
  /\ (forall (op : ExchangeApiOperator.t) (result : Response) (payload : Payload),
        body result = inr payload -> rates payload = Some items ->
        ExchangeApiOperator.process_data op result s
        = (inl (AirflowException (processing_error rate_error)),
           add_log (INFO, "Process data.") s)).
Proof.
  intros Hneg. apply existsb_true_Exists in Hneg.
  split; [eexists; reflexivity|].
  split; [rewrite build_frame_spec, Hneg; reflexivity|].
  split.
  - intros c. rewrite process_data_unfold. simpl.
    rewrite build_frame_spec, Hneg. reflexivity.
  - intros op result payload Hbody Hitems.
    rewrite (operator_process_data_unfold op result payload items s Hbody Hitems).
    rewrite build_frame_spec, Hneg. reflexivity.
Qed.

Lemma negative_rate_rejected_witness :
  Exists (fun kv => negative kv = true) negative_rates
  /\ fst (@ExchangeRates.process_data (sample_env good_answer)
            (ExchangeRates.__init__ "app") "2024-07-04" (Some negative_rates) fresh_state)
     = inr None.
Proof.
  assert (Hneg : Exists (fun kv => negative kv = true) negative_rates)
    by (constructor; reflexivity).
  split; [exact Hneg|].
  destruct (@negative_rate_rejected (sample_env good_answer) "2024-07-04" "USD"
              negative_rates fresh_state Hneg) as [_ [_ [Hcli _]]].
  rewrite (Hcli (ExchangeRates.__init__ "app")). reflexivity.
Defined.

(** C3, as the code has it.  The check is [isna()]: a mapping with a null
    ([None]) currency key makes the validation raise a [ValueError] -- the one
    about currencies, unless a negative rate raised the one about rates first
    -- which the batch form logs and the operator re-raises.  An empty string
    is not null: a mapping whose keys are all strings, empty or not, and whose
    rates are not negative is accepted. *)
Theorem null_currency_rejected `{Environment}
    (date base : string) (items : rates_dict) (s : State) :
  (Exists (fun kv => fst kv = None) items ->
   exists msg,
     (ValueError msg = rate_error \/ ValueError msg = currency_error)
     /\ (Forall (fun kv => negative kv = false) items -> ValueError msg = currency_error)
     /\ build_frame date base items s = (inl (ValueError msg), s)
     /\ (forall c : ExchangeRates.t,
           ExchangeRates.process_data c date (Some items) s
           = (inr None,
              add_log (ERROR, processing_error (ValueError msg)) (entered_transform date s)))
     /\ (forall (op : ExchangeApiOperator.t) (result : Response) (payload : Payload),
           body result = inr payload -> rates payload = Some items ->
           ExchangeApiOperator.process_data op result s
           = (inl (AirflowException (processing_error (ValueError msg))),
              add_log (INFO, "Process data.") s)))
  /\ (Forall (fun kv => exists k, fst kv = Some k) items ->
      Forall (fun kv => negative kv = false) items ->
      build_frame date base items s
      = (inr (record_set date base (clock (ticks s)) items), set_ticks (S (ticks s)) s)).
Proof.
  split.
  - intros Hnull.
    assert (Hn : existsb null_key items = true).
    { apply existsb_true_Exists. eapply Exists_impl; [exact Hnull|].
      intros kv Hk. unfold null_key. rewrite Hk. reflexivity. }
    assert (Hframe : exists msg,
               (ValueError msg = rate_error \/ ValueError msg = currency_error)
               /\ (Forall (fun kv => negative kv = false) items -> ValueError msg = currency_error)
               /\ build_frame date base items s = (inl (ValueError msg), s)).
    { rewrite build_frame_spec, Hn.
      destruct (existsb negative items) eqn:Hneg.
      - eexists. split; [left; reflexivity|]. split; [|reflexivity].
        intros Hall. rewrite (existsb_false_Forall _ _ Hall) in Hneg. discriminate.
      - eexists. split; [right; reflexivity|]. split; reflexivity. }
    destruct Hframe as [msg [Hwhich [Hcur Hframe]]].
    exists msg. split; [exact Hwhich|]. split; [exact Hcur|]. split; [exact Hframe|].
    split.
    + intros c. rewrite process_data_unfold. simpl.
      rewrite build_frame_spec, Hn. rewrite build_frame_spec, Hn in Hframe.
      destruct (existsb negative items); injection Hframe as <-; reflexivity.
    + intros op result payload Hbody Hitems.
      rewrite (operator_process_data_unfold op result payload items s Hbody Hitems).
      rewrite build_frame_spec, Hn. rewrite build_frame_spec, Hn in Hframe.
      destruct (existsb negative items); injection Hframe as <-; reflexivity.
  - intros Hkeys Hrates.
    rewrite build_frame_spec, (existsb_false_Forall _ _ Hrates).
    rewrite (existsb_false_Forall null_key items); [reflexivity|].
    eapply Forall_impl; [exact Hkeys|].
    intros kv [k Hk]. unfold null_key. rewrite Hk. reflexivity.
Qed.

Lemma null_currency_rejected_witness :
  Exists (fun kv => fst kv = None) null_key_rates
  /\ fst (@build_frame (sample_env good_answer) "2024-07-04" "USD" null_key_rates fresh_state)
     = inl currency_error.
Proof.
  assert (Hnull : Exists (fun kv => fst kv = None) null_key_rates)
    by (constructor; reflexivity).
  split; [exact Hnull|].
  destruct (@null_currency_rejected (sample_env good_answer) "2024-07-04" "USD"
              null_key_rates fresh_state) as [Hrej _].
  destruct (Hrej Hnull) as [msg [_ [Hcur [Hframe _]]]].
  rewrite Hframe. simpl. rewrite Hcur; [reflexivity|]. repeat constructor.
Defined.

(** C3 as stated fails on the empty string: the mapping whose only key is the
    empty string has an empty currency key, and both the validation and the
    batch [process_data] return its one-row record set instead of raising. *)
Lemma empty_currency_accepted :
  Exists null_or_empty_key empty_key
  /\ @build_frame (sample_env good_answer) "2024-07-04" "USD" empty_key fresh_state
     = (inr (record_set "2024-07-04" "USD" 1720051200 empty_key), set_ticks 1 fresh_state)
  /\ fst (@ExchangeRates.process_data (sample_env good_answer)
            (ExchangeRates.__init__ "app") "2024-07-04" (Some empty_key) fresh_state)
     = inr (Some (record_set "2024-07-04" "USD" 1720051200 empty_key)).
Proof.
  split; [constructor; right; reflexivity|].
  split; reflexivity.
Qed.

(** C10, as the code has it.  A rate that is exactly 0 does not trip the
    validation: when some rate is 0, no rate is strictly negative and no
    currency is null, the transformer accepts the mapping and the record set
    holds the zero-rate row.  Among mappings without a null currency, the
    rejected ones are exactly those with a strictly negative rate. *)
Theorem zero_rate_accepted `{Environment}
    (date base : string) (items : rates_dict) (s : State) :
  Exists (fun kv => zero_rate kv = true) items ->
  Forall (fun kv => negative kv = false) items ->
  Forall (fun kv => null_key kv = false) items ->
  let df := record_set date base (clock (ticks s)) items in
  build_frame date base items s = (inr df, set_ticks (S (ticks s)) s)
  /\ (forall c : ExchangeRates.t,
        ExchangeRates.base_currency c = base ->
        ExchangeRates.process_data c date (Some items) s
        = (inr (Some df), set_ticks (S (ticks s)) (entered_transform date s)))
  /\ (exists i kv,
        items !! i = Some kv /\ zero_rate kv = true
        /\ pd.at_ df i "date" = Some (pd.CObj (Some date))
        /\ pd.at_ df i "currency" = Some (pd.CObj (fst kv))
        /\ pd.at_ df i "rate" = Some (pd.CFloat (snd kv)))
  /\ (forall items' : rates_dict,
        Forall (fun kv => null_key kv = false) items' ->
        (exists ex, fst (build_frame date base items' s) = inl ex)
        <-> Exists (fun kv => negative kv = true) items').
Proof.
  intros Hzero Hrates Hkeys df.
  assert (Hframe : build_frame date base items s = (inr df, set_ticks (S (ticks s)) s)).
  { rewrite build_frame_spec, (existsb_false_Forall _ _ Hrates),
      (existsb_false_Forall _ _ Hkeys). reflexivity. }
  split; [exact Hframe|].
  split.
  { intros c Hbase. rewrite process_data_unfold. simpl.
    rewrite build_frame_spec, (existsb_false_Forall _ _ Hrates),
      (existsb_false_Forall _ _ Hkeys), Hbase. reflexivity. }
  split.
  { apply Exists_exists in Hzero. destruct Hzero as [kv [Hin Hz]].
    apply list_elem_of_lookup in Hin. destruct Hin as [i Hi].
    exists i, kv. split; [exact Hi|]. split; [exact Hz|].
    assert (Hlt : (i < length items)%nat) by (eapply lookup_lt_Some; exact Hi).
    destruct (record_set_constant date base (clock (ticks s)) items i Hlt) as [Hd _].
    destruct (record_set_entry date base (clock (ticks s)) items i kv Hi) as [Hc Hr].
    split; [exact Hd|]. split; [exact Hc|exact Hr]. }
  intros items' Hkeys'.
  rewrite build_frame_spec, (existsb_false_Forall _ _ Hkeys').
  destruct (existsb negative items') eqn:Hneg.
  - split; [intros _|intros _; eexists; reflexivity].
    apply existsb_exists in Hneg. destruct Hneg as [kv [Hin Hkv]].
    apply Exists_exists. exists kv. split; [apply list_elem_of_In; exact Hin|exact Hkv].
  - split; [intros [ex Hex]; discriminate|].
    intros Hex. rewrite (existsb_true_Exists _ _ Hex) in Hneg. discriminate.
Qed.

Lemma zero_rate_accepted_witness :
  Exists (fun kv => zero_rate kv = true) zero_rates
  /\ Forall (fun kv => negative kv = false) zero_rates
  /\ Forall (fun kv => null_key kv = false) zero_rates
  /\ fst (@build_frame (sample_env good_answer) "2024-07-04" "USD" zero_rates fresh_state)
     = inr (record_set "2024-07-04" "USD" 1720051200 zero_rates).
Proof.
  assert (Hz : Exists (fun kv => zero_rate kv = true) zero_rates)
    by (constructor; reflexivity).
  assert (Hr : Forall (fun kv => negative kv = false) zero_rates)
    by (repeat constructor).
  assert (Hk : Forall (fun kv => null_key kv = false) zero_rates)
    by (repeat constructor).
  split; [exact Hz|]. split; [exact Hr|]. split; [exact Hk|].
  destruct (@zero_rate_accepted (sample_env good_answer) "2024-07-04" "USD"
              zero_rates fresh_state Hz Hr Hk) as [Hframe _].
  rewrite Hframe. reflexivity.
Defined.

(** C10 as stated fails when another rate is negative: the mapping of AAA to
    0.0 and BBB to -1.0 has a rate that is exactly 0 and no null currency, yet
    the validation raises and the batch [process_data] returns [None]. *)
Lemma zero_beside_negative_rejected :
  Exists (fun kv => zero_rate kv = true) zero_and_negative
  /\ Forall (fun kv => null_key kv = false) zero_and_negative
  /\ @build_frame (sample_env good_answer) "2024-07-04" "USD" zero_and_negative fresh_state
     = (inl rate_error, fresh_state)
  /\ fst (@ExchangeRates.process_data (sample_env good_answer)
            (ExchangeRates.__init__ "app") "2024-07-04" (Some zero_and_negative) fresh_state)
     = inr None.
Proof.
  split; [constructor; reflexivity|].
  split; [repeat constructor|].
  split; reflexivity.
Qed.

(** ** The two [get_data] methods *)

(** C4. When the response is not [ok] -- which is a status in 400..599 --
    and its body has a [description], the fetcher raises an error whose
    message is ["API error {status_code}: {description}"] and returns no
    rates.  The operator lets it leave as an [AirflowException]; the batch
    [get_data] raises it inside its [try], logs it with the date and returns
    [None]. *)
Theorem api_error_on_failure `{Environment}
    (result : Response) (payload : Payload) (d : string) (s : State) :
  ok result = false ->
  body result = inr payload ->
  description payload = Some d ->
  400 <= status_code result < 600
  /\ api_error result d = "API error " +:+ pretty (status_code result) +:+ ": " +:+ d
  /\ (forall (c : ExchangeRates.t) (date : string),
        fault (HttpGet (ExchangeRates.url c date)) = None ->
        http (ExchangeRates.url c date) = result ->
        ExchangeRates.get_data_try c date (add_invocation Fetch date s)
        = (inl (PyException (api_error result d)), fetching c date s)
        /\ ExchangeRates.get_data c date s
           = (inr None,
              add_log (ERROR, fetch_error date (PyException (api_error result d)))
                (fetching c date s)))
  /\ (forall op : ExchangeApiOperator.t,
        fault (HttpGet (ExchangeApiOperator.url op)) = None ->
        http (ExchangeApiOperator.url op) = result ->
        ExchangeApiOperator.get_data op s
        = (inl (AirflowException (api_error result d)),
           add_request (HttpGet (ExchangeApiOperator.url op)) s)).
Proof.
  intros Hok Hbody Hdesc.
  split.
  { unfold ok in Hok. apply negb_false_iff, andb_true_iff in Hok.
    destruct Hok as [Hlo Hhi]. apply Z.leb_le in Hlo. apply Z.ltb_lt in Hhi. lia. }
  split; [reflexivity|].
  split.
  - intros c date Hfault Hhttp.
    assert (Htry : ExchangeRates.get_data_try c date (add_invocation Fetch date s)
                   = (inl (PyException (api_error result d)), fetching c date s)).
    { unfold ExchangeRates.get_data_try, requests_get, call, bind, logging_info,
        modify, lift, ret, raise, fetching. simpl.
      rewrite Hfault, Hhttp, Hok. simpl. rewrite Hbody. simpl. rewrite Hdesc.
      reflexivity. }
    split; [exact Htry|].
    unfold ExchangeRates.get_data, try_except, bind, enter, modify. simpl.
    rewrite Htry. reflexivity.
  - intros op Hfault Hhttp.
    unfold ExchangeApiOperator.get_data, requests_get, call, bind, modify, lift,
      ret, raise. simpl.
    rewrite Hfault, Hhttp, Hok. simpl. rewrite Hbody. simpl. rewrite Hdesc.
    reflexivity.
Qed.

Lemma api_error_on_failure_witness :
  ok denied_answer = false
  /\ fst (@ExchangeRates.get_data (sample_env denied_answer)
            (ExchangeRates.__init__ "app") "2024-07-04" fresh_state) = inr None
  /\ fst (@ExchangeApiOperator.get_data (sample_env denied_answer)
            (ExchangeApiOperator.__init__ "app" "2024-07-04" "/tmp/rates") fresh_state)
     = inl (AirflowException "API error 403: Invalid App ID").
Proof.
  assert (Hok : ok denied_answer = false) by reflexivity.
  split; [exact Hok|].
  destruct (@api_error_on_failure (sample_env denied_answer) denied_answer
              {| description := Some "Invalid App ID"; rates := None |}
              "Invalid App ID" fresh_state Hok eq_refl eq_refl)
    as [_ [_ [Hcli Hop]]].
  split.
  - destruct (Hcli (ExchangeRates.__init__ "app") "2024-07-04" eq_refl eq_refl)
      as [_ Hrun].
    rewrite Hrun. reflexivity.
  - rewrite (Hop (ExchangeApiOperator.__init__ "app" "2024-07-04" "/tmp/rates")
               eq_refl eq_refl).
    reflexivity.
Defined.

(** C4 as stated, for every status that is not a success, fails twice.
    [ok] is false for 400..599 only: a 304 answer is read like a
    200 one, the batch form returns its rates and the operator hands the
    response on.  And a 500 answer whose body has no [description] ends in the
    [KeyError] of reading it, not in an API error. *)
Lemma non_success_without_api_error :
  (status_code not_modified_answer = 304
   /\ fst (@ExchangeRates.get_data (sample_env not_modified_answer)
             (ExchangeRates.__init__ "app") "2024-07-04" fresh_state)
      = inr (Some two_rates)
   /\ fst (@ExchangeApiOperator.get_data (sample_env not_modified_answer)
             (ExchangeApiOperator.__init__ "app" "2024-07-04" "/tmp/rates") fresh_state)
      = inr not_modified_answer)
  /\ (status_code bare_denied_answer = 500
      /\ fst (@ExchangeApiOperator.get_data (sample_env bare_denied_answer)
                (ExchangeApiOperator.__init__ "app" "2024-07-04" "/tmp/rates") fresh_state)
         = inl (KeyError "description")
      /\ fst (@ExchangeRates.get_data (sample_env bare_denied_answer)
                (ExchangeRates.__init__ "app") "2024-07-04" fresh_state)
         = inr None
      /\ log (snd (@ExchangeRates.get_data (sample_env bare_denied_answer)
                     (ExchangeRates.__init__ "app") "2024-07-04" fresh_state))
         = [(INFO, "Trying to get an exchange rates by 2024-07-04...");
            (ERROR, "Unable to get data from API by 2024-07-04: 'description'")]).
Proof.
  split.
  - split; [reflexivity|]. split; vm_compute; reflexivity.
  - split; [reflexivity|]. split; [vm_compute; reflexivity|].
    split; vm_compute; reflexivity.
Qed.

(** ** The batch collector, method by method *)

Section CollectorFacts.
Context `{Environment}.

(** [get_data] always returns; it touches neither the bucket nor the tables,
    and a [None] result comes with an ERROR line in the log. *)
Lemma get_data_effect (c : ExchangeRates.t) (date : string) (s : State) :
  exists rates s1,
    ExchangeRates.get_data c date s = (inr rates, s1)
    /\ objects s1 = objects s /\ tables s1 = tables s
    /\ invocations s1 = invocations s ++ [(Fetch, date)]
    /\ exists entries,
         log s1 = log s ++ entries
         /\ (rates = None -> exists msg, In (ERROR, msg) entries).
Proof.
  unfold ExchangeRates.get_data, ExchangeRates.get_data_try, try_except, requests_get,
    call, bind, enter, logging_info, logging_error, modify, lift, ret, raise. simpl.
  destruct (fault (HttpGet (ExchangeRates.url c date))) as [ex|]; simpl.
  { do 2 eexists. repeat (split; [reflexivity|]). eexists. simpl.
    rewrite <- List.app_assoc. split; [reflexivity|].
    intros _. eexists. right. left. reflexivity. }
  destruct (ok (http (ExchangeRates.url c date))); simpl;
    destruct (body (http (ExchangeRates.url c date))) as [ex|payload]; simpl;
    try destruct (rates payload) as [r|]; try destruct (description payload) as [d|];
    simpl; do 2 eexists; repeat (split; [reflexivity|]); eexists; simpl;
    rewrite <- ?List.app_assoc; (split; [reflexivity|]);
    try (intros Hnone; discriminate Hnone);
    intros _; eexists; right; left; reflexivity.
Qed.

(** [process_data] always returns, and likewise. *)
Lemma process_data_effect (c : ExchangeRates.t) (date : string)
    (rates : option rates_dict) (s : State) :
  exists data s2,
    ExchangeRates.process_data c date rates s = (inr data, s2)
    /\ objects s2 = objects s /\ tables s2 = tables s
    /\ invocations s2 = invocations s ++ [(Transform, date)]
    /\ (rates = None -> data = None)
    /\ exists entries,
         log s2 = log s ++ entries
         /\ (data = None -> exists msg, In (ERROR, msg) entries).
Proof.
  rewrite process_data_unfold.
  destruct rates as [items|]; simpl.
  - rewrite build_frame_spec.
    destruct (existsb negative items); [|destruct (existsb null_key items)];
      do 2 eexists; do 4 (split; [reflexivity|]);
      (split; [intros Hnone; discriminate Hnone|]);
      eexists; simpl; rewrite <- ?List.app_assoc; (split; [reflexivity|]);
      try (intros Hnone; discriminate Hnone);
      intros _; eexists; right; left; reflexivity.
  - do 2 eexists. do 4 (split; [reflexivity|]).
    split; [reflexivity|].
    eexists. simpl. rewrite <- List.app_assoc. split; [reflexivity|].
    intros _. eexists. right. left. reflexivity.
Qed.

Lemma load_file_to_bucket_unfold (date : string) (data : option pd.DataFrame) (s : State) :
  ExchangeRates.load_file_to_bucket date data s =
    match data with
    | None =>
        (inr tt,
         add_log (ERROR, sink_error (AttributeError "'NoneType' object has no attribute 'to_csv'"))
           (add_invocation Sink date s))
    | Some df =>
        let text := pd.to_csv df false in
        match fault (BlobUpload (ExchangeRates.blob_name date) text) with
        | Some ex => (inr tt, add_log (ERROR, sink_error ex) (uploading date text s))
        | None =>
            (inr tt,
             add_log (INFO, "Upload downloaded report -> " +:+ ExchangeRates.blob_name date)
               (set_objects (insert (ExchangeRates.blob_name date) text)
                  (uploading date text s)))
        end
    end.
Proof.
  unfold ExchangeRates.load_file_to_bucket, ExchangeRates.load_file_to_bucket_try,
    try_except, upload_from_string, call, bind, enter, logging_info, logging_error,
    modify, lift, ret, raise. simpl.
  destruct data as [df|]; simpl; [|reflexivity].
  destruct (fault _); reflexivity.
Qed.

(** [load_file_to_bucket] always returns; the bucket changes at most at the
    date's own blob, and not at all when the sink fails, which it logs. *)
Lemma load_file_to_bucket_effect (date : string) (data : option pd.DataFrame) (s : State) :
  exists s3,
    ExchangeRates.load_file_to_bucket date data s = (inr tt, s3)
    /\ tables s3 = tables s
    /\ invocations s3 = invocations s ++ [(Sink, date)]
    /\ (objects s3 = objects s
        \/ exists text, objects s3 = <[ExchangeRates.blob_name date := text]> (objects s))
    /\ exists entries,
         log s3 = log s ++ entries
         /\ (sink_failed date data ->
             objects s3 = objects s /\ exists msg, In (ERROR, msg) entries).
Proof.
  rewrite load_file_to_bucket_unfold.
  destruct data as [df|]; simpl.
  - destruct (fault _) as [ex|] eqn:Hfault; eexists; do 3 (split; [reflexivity|]).
    + split; [left; reflexivity|]. eexists. split; [reflexivity|].
      intros _. split; [reflexivity|]. eexists. left. reflexivity.
    + split; [right; eexists; reflexivity|]. eexists. split; [reflexivity|].
      intros [Hnone|[df' [ex [Hdf Hup]]]]; [discriminate Hnone|].
      injection Hdf as <-. rewrite Hup in Hfault. discriminate Hfault.
  - eexists. do 3 (split; [reflexivity|]). split; [left; reflexivity|].
    eexists. split; [reflexivity|].
    intros _. split; [reflexivity|]. eexists. left. reflexivity.
Qed.

(** Fetch, transform and sink of one date: the three methods return, so the
    turn goes on to the loader; each logs its own failure, and a failure in
    any of them leaves the bucket as it was. *)
Lemma collection_steps (c : ExchangeRates.t) (date : string) (s : State) :
  exists rates s1 data s2 s3 e1 e2 e3,
    (ExchangeRates.get_data c date s = (inr rates, s1) /\ log s1 = log s ++ e1)
    /\ (ExchangeRates.process_data c date rates s1 = (inr data, s2) /\ log s2 = log s1 ++ e2)
    /\ (ExchangeRates.load_file_to_bucket date data s2 = (inr tt, s3) /\ log s3 = log s2 ++ e3)
    /\ ExchangeRates.collect c date s = ExchangeRates.from_gcs_to_biguery date s3
    /\ tables s3 = tables s
    /\ invocations s3 = invocations s ++ [(Fetch, date); (Transform, date); (Sink, date)]
    /\ (objects s3 = objects s
        \/ exists text, objects s3 = <[ExchangeRates.blob_name date := text]> (objects s))
    /\ (rates = None -> exists msg, In (ERROR, msg) e1)
    /\ (data = None -> exists msg, In (ERROR, msg) e2)
    /\ (sink_failed date data -> exists msg, In (ERROR, msg) e3)
    /\ (collection_failed date rates data -> objects s3 = objects s).
Proof.
  destruct (get_data_effect c date s)
    as [rates [s1 [Hget [Hobj1 [Htab1 [Hinv1 [e1 [Hlog1 Herr1]]]]]]]].
  destruct (process_data_effect c date rates s1)
    as [data [s2 [Hproc [Hobj2 [Htab2 [Hinv2 [Hnone [e2 [Hlog2 Herr2]]]]]]]]].
  destruct (load_file_to_bucket_effect date data s2)
    as [s3 [Hload [Htab3 [Hinv3 [Hobj3 [e3 [Hlog3 Herr3]]]]]]].
  exists rates, s1, data, s2, s3, e1, e2, e3.
  split; [split; [exact Hget|exact Hlog1]|].
  split; [split; [exact Hproc|exact Hlog2]|].
  split; [split; [exact Hload|exact Hlog3]|].
  split.
  { unfold ExchangeRates.collect.
    rewrite bind_eq, Hget. lazy beta iota.
    rewrite bind_eq, Hproc. lazy beta iota.
    rewrite bind_eq, Hload. reflexivity. }
  split; [rewrite Htab3, Htab2, Htab1; reflexivity|].
  split.
  { rewrite Hinv3, Hinv2, Hinv1, <- !List.app_assoc. reflexivity. }
  split.
  { rewrite Hobj2, Hobj1 in Hobj3. exact Hobj3. }
  split; [exact Herr1|]. split; [exact Herr2|].
  split; [intros Hsink; apply (Herr3 Hsink)|].
  intros Hfailed.
  assert (Hsink : sink_failed date data).
  { destruct Hfailed as [Hr|[Hd|Hs]]; [left; apply Hnone; exact Hr|left; exact Hd|exact Hs]. }
  destruct (Herr3 Hsink) as [Hsame _]. rewrite Hsame, Hobj2, Hobj1. reflexivity.
Qed.

End CollectorFacts.

(** ** The loader *)

Section LoaderFacts.
Context `{Environment}.

Lemma download_ok (name text : string) (s : State) :
  fault (BlobDownload name) = None -> objects s !! name = Some text ->
  download_as_string name s = (inr text, add_request (BlobDownload name) s).
Proof.
  intros Hf Hblob. unfold download_as_string, call, bind, modify, ret, raise. simpl.
  rewrite Hf. simpl. rewrite Hblob. reflexivity.
Qed.

Lemma list_ok (prefix : string) (s : State) :
  fault (ListBlobs prefix) = None ->
  list_blobs prefix s = (inr (listing prefix s), add_request (ListBlobs prefix) s).
Proof.
  intros Hf. unfold list_blobs, call, bind, modify, ret, raise. simpl.
  rewrite Hf. reflexivity.
Qed.

Lemma delete_ok (table : string) (s : State) :
  fault (DeleteTable table) = None ->
  delete_table table s
  = (inr tt, set_tables (delete table) (add_request (DeleteTable table) s)).
Proof.
  intros Hf. unfold delete_table, call, bind, modify, ret, raise. simpl.
  rewrite Hf. reflexivity.
Qed.

(** One turn of the loop over the listed blobs. *)
Lemma load_step (date : string) (sch : list SchemaField) (b : string) (s : State) :
  fault (load_job date sch b) = None ->
  (load_table_from_uri (ExchangeRates.gs_uri b) (ExchangeRates.bq_table date)
     (ExchangeRates.job_config sch) ;;;
   logging_info ("Upload " +:+ ExchangeRates.gs_uri b +:+ " into BQ table -> "
                 +:+ ExchangeRates.bq_table date)) s
  = (inr tt,
     add_log (loaded_line date b)
       (set_tables (fun t =>
          <[ExchangeRates.bq_table date :=
              default [] (t !! ExchangeRates.bq_table date) ++ [ExchangeRates.gs_uri b]]> t)
          (add_request (load_job date sch b) s))).
Proof.
  intros Hb. unfold load_job, ExchangeRates.job_config in *.
  unfold load_table_from_uri, call, bind, logging_info, modify, ret, raise. simpl.
  rewrite Hb. reflexivity.
Qed.

(** The loop over the listed blobs: one append job each, in order. *)
Lemma load_loop (date : string) (sch : list SchemaField) (blobs : list string) (s : State) :
  (forall b, In b blobs -> fault (load_job date sch b) = None) ->
  exists s',
    for_each blobs (fun blob =>
      load_table_from_uri (ExchangeRates.gs_uri blob) (ExchangeRates.bq_table date)
        (ExchangeRates.job_config sch) ;;;
      logging_info ("Upload " +:+ ExchangeRates.gs_uri blob +:+ " into BQ table -> "
                    +:+ ExchangeRates.bq_table date)) s = (inr tt, s')
    /\ objects s' = objects s
    /\ invocations s' = invocations s
    /\ requests s' = requests s ++ map (load_job date sch) blobs
    /\ log s' = log s ++ map (loaded_line date) blobs
    /\ tables s' =
         match blobs with
         | [] => tables s
         | _ :: _ =>
             <[ExchangeRates.bq_table date :=
                 default [] (tables s !! ExchangeRates.bq_table date)
                 ++ map ExchangeRates.gs_uri blobs]> (tables s)
         end.
Proof.
  revert s. induction blobs as [|b rest IH]; intros s Hfault.
  - exists s. simpl. rewrite !app_nil_r. repeat split; reflexivity.
  - assert (Hb : fault (load_job date sch b) = None) by (apply Hfault; left; reflexivity).
    rewrite for_each_cons, (load_step date sch b s Hb). lazy beta iota.
    assert (Hrest : forall b', In b' rest -> fault (load_job date sch b') = None)
      by (intros b' Hb'; apply Hfault; right; exact Hb').
    set (s1 := add_log (loaded_line date b) _).
    destruct (IH s1 Hrest) as [s' [Hrun [Hobj [Hinv [Hreq [Hlog Htab]]]]]].
    subst s1.
    exists s'. split; [exact Hrun|].
    split; [rewrite Hobj; reflexivity|].
    split; [rewrite Hinv; reflexivity|].
    split; [rewrite Hreq; simpl; rewrite <- List.app_assoc; reflexivity|].
    split; [rewrite Hlog; simpl; rewrite <- List.app_assoc; reflexivity|].
    rewrite Htab. simpl. destruct rest as [|b' rest'].
    + reflexivity.
    + rewrite lookup_insert_eq. simpl. rewrite insert_insert_eq.
      rewrite <- List.app_assoc. reflexivity.
Qed.

(** What the loader does when the schema is there and its calls go through. *)
Lemma loader_spec (date : string) (sch : list SchemaField) (s : State) :
  schema_available sch s ->
  fault (BlobDownload ExchangeRates.schema_blob) = None ->
  fault (ListBlobs (date_prefix date)) = None ->
  fault (DeleteTable (ExchangeRates.bq_table date)) = None ->
  (forall b, In b (listing (date_prefix date) s) -> fault (load_job date sch b) = None) ->
  exists s',
    ExchangeRates.from_gcs_to_biguery date s = (inr tt, s')
    /\ objects s' = objects s
    /\ invocations s' = invocations s ++ [(Loader, date)]
    /\ requests s' =
         requests s
         ++ [BlobDownload ExchangeRates.schema_blob; ListBlobs (date_prefix date)]
         ++ match listing (date_prefix date) s with
            | [] => []
            | blobs => DeleteTable (ExchangeRates.bq_table date)
                       :: map (load_job date sch) blobs
            end
    /\ log s' =
         log s ++ (INFO, "Uploading file from GCS to BQ by " +:+ date +:+ "...")
                  :: map (loaded_line date) (listing (date_prefix date) s)
    /\ tables s' =
         match listing (date_prefix date) s with
         | [] => tables s
         | blobs => <[ExchangeRates.bq_table date := map ExchangeRates.gs_uri blobs]> (tables s)
         end.
Proof.
  intros [text [j [Hblob [Hjson Hsch]]]] Hdl Hls Hdel Hload.
  unfold ExchangeRates.from_gcs_to_biguery.
  rewrite bind_eq. unfold enter at 1, modify at 1. lazy beta iota.
  rewrite bind_eq. unfold logging_info at 1, modify at 1. lazy beta iota.
  rewrite bind_eq, (download_ok _ text) by (try exact Hdl; exact Hblob).
  lazy beta iota.
  rewrite bind_eq, Hjson. unfold lift at 1, ret at 1. lazy beta iota.
  rewrite bind_eq, Hsch. unfold lift at 1, ret at 1. lazy beta iota.
  fold (date_prefix date).
  rewrite bind_eq, list_ok by exact Hls. lazy beta iota.
  change (listing (date_prefix date) _) with (listing (date_prefix date) s).
  destruct (listing (date_prefix date) s) as [|b0 rest] eqn:Hlist.
  - simpl. eexists. split; [reflexivity|]. simpl.
    repeat split; try reflexivity.
    rewrite <- !List.app_assoc. reflexivity.
  - change (0 <? length (b0 :: rest))%nat with true. lazy beta iota.
    rewrite bind_eq, delete_ok by exact Hdel. lazy beta iota.
    set (s1 := set_tables _ _).
    destruct (load_loop date sch (b0 :: rest) s1 Hload)
      as [s' [Hrun [Hobj [Hinv [Hreq [Hlog Htab]]]]]].
    subst s1.
    exists s'. split; [exact Hrun|].
    split; [rewrite Hobj; reflexivity|].
    split; [rewrite Hinv; reflexivity|].
    split; [rewrite Hreq; simpl; rewrite <- !List.app_assoc; reflexivity|].
    split; [rewrite Hlog; simpl; rewrite <- !List.app_assoc; reflexivity|].
    rewrite Htab. simpl. rewrite lookup_delete_eq. simpl.
    rewrite insert_delete_eq. reflexivity.
Qed.

End LoaderFacts.

(** C6. With the schema object in place and none of the loader's calls
    raising: when the listing of [data/{date}/] is not empty, the loader
    deletes the table
    [exchange_rates.exchange_rates_{date without dashes}] and then issues one
    WRITE_APPEND load job per listed object, in listing order, so that the
    table holds exactly those objects; when the listing is empty it deletes
    and loads nothing, raises nothing and logs its opening INFO line only. *)
Theorem loader_rebuilds_table `{Environment}
    (date : string) (sch : list SchemaField) (s : State) :
  schema_available sch s ->
  loader_calls_succeed ->
  let blobs := listing (date_prefix date) s in
  ExchangeRates.bq_table "2024-07-04" = "exchange_rates.exchange_rates_20240704"
  /\ exists s',
       ExchangeRates.from_gcs_to_biguery date s = (inr tt, s')
       /\ objects s' = objects s
       /\ (blobs <> [] ->
           requests s' =
             requests s
             ++ [BlobDownload ExchangeRates.schema_blob; ListBlobs (date_prefix date);
                 DeleteTable (ExchangeRates.bq_table date)]
             ++ map (load_job date sch) blobs
           /\ tables s' = <[ExchangeRates.bq_table date := map ExchangeRates.gs_uri blobs]> (tables s))
       /\ (blobs = [] ->
           requests s' =
             requests s
             ++ [BlobDownload ExchangeRates.schema_blob; ListBlobs (date_prefix date)]
           /\ tables s' = tables s
           /\ log s' = log s ++ [(INFO, "Uploading file from GCS to BQ by " +:+ date +:+ "...")]).
Proof.
  intros Hsch Hcalls blobs.
  split; [reflexivity|].
  destruct (loader_spec date sch s Hsch) as [s' [Hrun [Hobj [_ [Hreq [Hlog Htab]]]]]];
    try (apply Hcalls; reflexivity).
  { intros b _. apply Hcalls. reflexivity. }
  exists s'. split; [exact Hrun|]. split; [exact Hobj|].
  fold blobs in Hreq, Hlog, Htab.
  split.
  - intros Hne. destruct blobs as [|b0 rest]; [congruence|].
    split; [exact Hreq|exact Htab].
  - intros Hnil. rewrite Hnil in Hreq, Hlog, Htab.
    split; [exact Hreq|]. split; [exact Htab|exact Hlog].
Qed.

Lemma loader_rebuilds_table_witness :
  schema_available (H := sample_env good_answer) sample_fields two_blob_state
  /\ listing (date_prefix "2024-07-04") two_blob_state
     = ["data/2024-07-04/a.csv"; "data/2024-07-04/b.csv"]
  /\ exists s',
       @ExchangeRates.from_gcs_to_biguery (sample_env good_answer) "2024-07-04" two_blob_state
       = (inr tt, s')
       /\ tables s' !! "exchange_rates.exchange_rates_20240704"
          = Some ["gs://rates-bucket/data/2024-07-04/a.csv";
                  "gs://rates-bucket/data/2024-07-04/b.csv"].
Proof.
  assert (Hsch : schema_available (H := sample_env good_answer) sample_fields two_blob_state).
  { exists sample_schema_text, sample_schema. repeat split; reflexivity. }
  assert (Hlist : listing (date_prefix "2024-07-04") two_blob_state
                  = ["data/2024-07-04/a.csv"; "data/2024-07-04/b.csv"])
    by (vm_compute; reflexivity).
  split; [exact Hsch|]. split; [exact Hlist|].
  destruct (@loader_rebuilds_table (sample_env good_answer) "2024-07-04" sample_fields
              two_blob_state Hsch (fun _ _ => eq_refl))
    as [_ [s' [Hrun [_ [Hfull _]]]]].
  exists s'. split; [exact Hrun|].
  destruct Hfull as [_ Htab]; [rewrite Hlist; discriminate|].
  rewrite Htab, Hlist. apply lookup_insert_eq.
Defined.

(** ** The loop over the dates *)

Section LoopFacts.
Context `{Environment}.

Lemma add_in_range (self days : Z) :
  pendulum.min_day <= self + days <= pendulum.max_day ->
  pendulum.add self days = inr (self + days).
Proof.
  intros [Hlo Hhi]. unfold pendulum.add, pendulum.in_range.
  rewrite (proj2 (Z.leb_le _ _) Hlo), (proj2 (Z.leb_le _ _) Hhi). reflexivity.
Qed.

Lemma add_out_of_range (self days : Z) :
  self + days < pendulum.min_day \/ pendulum.max_day < self + days ->
  pendulum.add self days = inl pendulum.out_of_range.
Proof.
  intros Hout. unfold pendulum.add, pendulum.in_range.
  destruct Hout as [Hlo|Hhi].
  - rewrite (proj2 (Z.leb_gt _ _) Hlo). reflexivity.
  - rewrite (proj2 (Z.leb_gt _ _) Hhi), andb_false_r. reflexivity.
Qed.

Lemma day_bounds (d : pendulum.DateTime) :
  pendulum.min_day <= pendulum.day d <= pendulum.max_day.
Proof.
  pose proof (pendulum.day_in_range d) as Hin. unfold pendulum.in_range in Hin.
  apply andb_true_iff in Hin. destruct Hin as [Hlo Hhi].
  apply Z.leb_le in Hlo. apply Z.leb_le in Hhi. lia.
Qed.

(** Counting up to an [end_] before the last day, the loop of [range] yields
    the days from [cur] to [end_], whatever fuel is left over. *)
Lemma range_loop_up (fuel : nat) (first cur end_ i : Z) :
  cur = first + i - 1 ->
  pendulum.min_day <= cur + 1 ->
  end_ < pendulum.max_day ->
  end_ - cur < Z.of_nat fuel ->
  pendulum.range_loop fuel false first cur end_ i = inr (seqZ cur (end_ - cur + 1)).
Proof.
  revert cur i. induction fuel as [|fuel IH]; intros cur i Hcur Hmin Hmax Hfuel.
  - simpl. rewrite seqZ_nil by lia. reflexivity.
  - simpl. destruct (Z.leb_spec cur end_) as [Hle|Hgt].
    + rewrite add_in_range by lia.
      rewrite (IH (first + i) (i + 1)) by lia.
      rewrite (seqZ_cons cur (end_ - cur + 1)) by lia. do 3 f_equal; lia.
    + rewrite seqZ_nil by lia. reflexivity.
Qed.

(** Counting up to the last day: the day after it is asked for, and that
    raises. *)
Lemma range_loop_up_overflow (fuel : nat) (first cur end_ i : Z) :
  cur = first + i - 1 ->
  pendulum.min_day <= cur + 1 ->
  cur <= end_ ->
  end_ = pendulum.max_day ->
  end_ - cur < Z.of_nat fuel ->
  pendulum.range_loop fuel false first cur end_ i = inl pendulum.out_of_range.
Proof.
  revert cur i. induction fuel as [|fuel IH]; intros cur i Hcur Hmin Hle Hmax Hfuel.
  - lia.
  - simpl. rewrite (proj2 (Z.leb_le _ _) Hle).
    destruct (Z.eq_dec cur end_) as [Heq|Hne].
    + rewrite add_out_of_range by lia. reflexivity.
    + rewrite add_in_range by lia.
      rewrite (IH (first + i) (i + 1)) by lia. reflexivity.
Qed.

(** Counting down, likewise: the days from [cur] down to [end_], when [end_]
    is after the first day. *)
Lemma range_loop_down (fuel : nat) (first cur end_ i : Z) :
  cur = first - i + 1 ->
  cur - 1 <= pendulum.max_day ->
  pendulum.min_day < end_ ->
  cur - end_ < Z.of_nat fuel ->
  pendulum.range_loop fuel true first cur end_ i
  = inr (map (fun k => cur - k) (seqZ 0 (cur - end_ + 1))).
Proof.
  revert cur i. induction fuel as [|fuel IH]; intros cur i Hcur Hmax Hmin Hfuel.
  - simpl. rewrite seqZ_nil by lia. reflexivity.
  - simpl. destruct (Z.leb_spec end_ cur) as [Hle|Hgt].
    + unfold pendulum.subtract. rewrite add_in_range by lia.
      rewrite (IH (first + - i) (i + 1)) by lia.
      rewrite (seqZ_cons 0 (cur - end_ + 1)) by lia. simpl. do 2 f_equal; [lia|].
      replace (Z.pred (cur - end_ + 1)) with (first + - i - end_ + 1) by lia.
      rewrite <- (fmap_add_seqZ 1 0).
      change (map (fun k => cur - k) (Z.add 1 <$> seqZ 0 (first + - i - end_ + 1)))
        with (map (fun k => cur - k) (map (Z.add 1) (seqZ 0 (first + - i - end_ + 1)))).
      rewrite map_map. apply map_ext. intros k. lia.
    + rewrite seqZ_nil by lia. reflexivity.
Qed.

(** Counting down to the first day: the day before it is asked for. *)
Lemma range_loop_down_overflow (fuel : nat) (first cur end_ i : Z) :
  cur = first - i + 1 ->
  cur - 1 <= pendulum.max_day ->
  end_ <= cur ->
  end_ = pendulum.min_day ->
  cur - end_ < Z.of_nat fuel ->
  pendulum.range_loop fuel true first cur end_ i = inl pendulum.out_of_range.
Proof.
  revert cur i. induction fuel as [|fuel IH]; intros cur i Hcur Hmax Hle Hmin Hfuel.
  - lia.
  - simpl. rewrite (proj2 (Z.leb_le _ _) Hle). unfold pendulum.subtract.
    destruct (Z.eq_dec cur end_) as [Heq|Hne].
    + rewrite add_out_of_range by lia. reflexivity.
    + rewrite add_in_range by lia.
      rewrite (IH (first + - i) (i + 1)) by lia. reflexivity.
Qed.

(** What the range of two dates is: the days between them, upwards or
    downwards, unless it ends on the last or on the first day. *)
Lemma interval_range_days_up (start end_ : pendulum.DateTime) :
  pendulum.day start <= pendulum.day end_ ->
  pendulum.interval_range_days start end_
  = if pendulum.day end_ <? pendulum.max_day
    then inr (seqZ (pendulum.day start) (pendulum.day end_ - pendulum.day start + 1))
    else inl pendulum.out_of_range.
Proof.
  intros Hle. unfold pendulum.interval_range_days.
  pose proof (day_bounds start) as Hs. pose proof (day_bounds end_) as He.
  replace (pendulum.day end_ <? pendulum.day start) with false
    by (symmetry; apply Z.ltb_ge; exact Hle).
  destruct (Z.ltb_spec (pendulum.day end_) pendulum.max_day) as [Hlt|Hge].
  - apply range_loop_up; lia.
  - apply range_loop_up_overflow; lia.
Qed.

Lemma interval_range_days_down (start end_ : pendulum.DateTime) :
  pendulum.day end_ < pendulum.day start ->
  pendulum.interval_range_days start end_
  = if pendulum.min_day <? pendulum.day end_
    then inr (map (fun k => pendulum.day start - k)
                (seqZ 0 (pendulum.day start - pendulum.day end_ + 1)))
    else inl pendulum.out_of_range.
Proof.
  intros Hlt. unfold pendulum.interval_range_days.
  pose proof (day_bounds start) as Hs. pose proof (day_bounds end_) as He.
  replace (pendulum.day end_ <? pendulum.day start) with true
    by (symmetry; apply Z.ltb_lt; exact Hlt).
  destruct (Z.ltb_spec pendulum.min_day (pendulum.day end_)) as [Hgt|Hle].
  - apply range_loop_down; lia.
  - apply range_loop_down_overflow; lia.
Qed.

Lemma blob_is_not_schema (date : string) :
  ExchangeRates.blob_name date <> ExchangeRates.schema_blob.
Proof. unfold ExchangeRates.blob_name, ExchangeRates.schema_blob. simpl. discriminate. Qed.

(** One turn of the loop, when the loader can run. *)
Lemma collect_spec (c : ExchangeRates.t) (date : string) (sch : list SchemaField) (s : State) :
  schema_available sch s -> loader_calls_succeed ->
  exists rates s1 data s2 s3 s',
    ExchangeRates.get_data c date s = (inr rates, s1)
    /\ ExchangeRates.process_data c date rates s1 = (inr data, s2)
    /\ ExchangeRates.load_file_to_bucket date data s2 = (inr tt, s3)
    /\ ExchangeRates.collect c date s = (inr tt, s')
    /\ invocations s' = invocations s ++ pipeline date
    /\ schema_available sch s'
    /\ (collection_failed date rates data ->
        objects s3 = objects s
        /\ requests s' =
             requests s3
             ++ [BlobDownload ExchangeRates.schema_blob; ListBlobs (date_prefix date)]
             ++ match listing (date_prefix date) s with
                | [] => []
                | blobs => DeleteTable (ExchangeRates.bq_table date)
                           :: map (load_job date sch) blobs
                end
        /\ tables s' =
             match listing (date_prefix date) s with
             | [] => tables s
             | blobs => <[ExchangeRates.bq_table date := map ExchangeRates.gs_uri blobs]> (tables s)
             end).
Proof.
  intros [text [j [Hblob [Hjson Hsch]]]] Hcalls.
  destruct (collection_steps c date s)
    as (rates & s1 & data & s2 & s3 & e1 & e2 & e3 & [Hget _] & [Hproc _] & [Hload _]
        & Hcollect & Htab3 & Hinv3 & Hobj3 & _ & _ & _ & Hfail).
  assert (Hsch3 : schema_available sch s3).
  { exists text, j. split; [|split; [exact Hjson|exact Hsch]].
    destruct Hobj3 as [->|[text' ->]]; [exact Hblob|].
    rewrite lookup_insert_ne by apply blob_is_not_schema. exact Hblob. }
  destruct (loader_spec date sch s3 Hsch3) as [s' [Hrun [Hobj [Hinv [Hreq [_ Htab]]]]]];
    try (apply Hcalls; reflexivity).
  { intros b _. apply Hcalls. reflexivity. }
  exists rates, s1, data, s2, s3, s'.
  split; [exact Hget|]. split; [exact Hproc|]. split; [exact Hload|].
  split; [rewrite Hcollect; exact Hrun|].
  split; [rewrite Hinv, Hinv3, <- List.app_assoc; reflexivity|].
  split.
  { destruct Hsch3 as [t3 [j3 [Hb3 Hrest]]]. exists t3, j3.
    split; [rewrite Hobj; exact Hb3|exact Hrest]. }
  intros Hfailed. pose proof (Hfail Hfailed) as Hsame.
  assert (Hlisting : listing (date_prefix date) s3 = listing (date_prefix date) s)
    by (unfold listing; rewrite Hsame; reflexivity).
  rewrite Hlisting, Htab3 in *.
  split; [exact Hsame|]. split; [exact Hreq|exact Htab].
Qed.

(** The loop over a list of dates. *)
Lemma loop_spec (c : ExchangeRates.t) (sch : list SchemaField) (dates : list string) (s : State) :
  schema_available sch s -> loader_calls_succeed ->
  exists s',
    for_each dates (ExchangeRates.collect c) s = (inr tt, s')
    /\ invocations s' = invocations s ++ flat_map pipeline dates.
Proof.
  intros Hsch Hcalls. revert s Hsch.
  induction dates as [|d rest IH]; intros s Hsch.
  - exists s. split; [reflexivity|]. simpl. rewrite app_nil_r. reflexivity.
  - destruct (collect_spec c d sch s Hsch Hcalls)
      as [rates [s1 [data [s2 [s3 [sd [_ [_ [_ [Hrun [Hinv [Hschd _]]]]]]]]]]]].
    destruct (IH sd Hschd) as [s' [Hrest Hinv']].
    exists s'. rewrite for_each_cons, Hrun. split; [exact Hrest|].
    rewrite Hinv', Hinv. simpl. rewrite <- List.app_assoc. reflexivity.
Qed.

End LoopFacts.



(** C7. With the credentials in place and a loader that can run, the batch
    form started on [start_date <= end_date], with [end_date] before
    9999-12-31, enumerates the days of the closed interval once each, in
    ascending order, and enters the four methods -- fetch, transform, sink,
    loader -- once per date, in that order, one date after the other.  When
    [end_date] is 9999-12-31 the enumeration itself raises [OverflowError],
    and no date is processed. *)
Theorem batch_visits_every_date `{Environment}
    (app_id : string) (start_date end_date : pendulum.DateTime)
    (sch : list SchemaField) (s : State) :
  pendulum.day start_date <= pendulum.day end_date ->
  (pendulum.day end_date < pendulum.max_day ->
   credentials_exist = true ->
   schema_available sch s ->
   loader_calls_succeed ->
   exists days,
     pendulum.interval_range_days start_date end_date = inr days
     /\ length days = Z.to_nat (pendulum.day end_date - pendulum.day start_date + 1)
     /\ (forall i : nat, Z.of_nat i <= pendulum.day end_date - pendulum.day start_date ->
           days !! i = Some (pendulum.day start_date + Z.of_nat i))
     /\ exists s',
          ExchangeRates.main app_id start_date end_date s = (inr tt, s')
          /\ invocations s' =
               invocations s ++ flat_map pipeline (map pendulum.isoformat days))
  /\ (pendulum.day end_date = pendulum.max_day ->
      exists msg,
        ExchangeRates.main app_id start_date end_date s = (inl (OverflowError msg), s)).
Proof.
  intros Hle. pose proof (interval_range_days_up start_date end_date Hle) as Hrange.
  split.
  - intros Hlt Hcred Hsch Hcalls.
    rewrite (proj2 (Z.ltb_lt _ _) Hlt) in Hrange.
    set (days := seqZ (pendulum.day start_date)
                   (pendulum.day end_date - pendulum.day start_date + 1)) in *.
    exists days. split; [exact Hrange|].
    split; [apply length_seqZ|].
    split; [intros i Hi; apply lookup_seqZ_lt; lia|].
    destruct (loop_spec (ExchangeRates.__init__ app_id) sch (map pendulum.isoformat days) s
                Hsch Hcalls) as [s' [Hrun Hinv]].
    exists s'. split; [|exact Hinv].
    unfold ExchangeRates.main, ExchangeRates.get_gcp_clients.
    rewrite bind_eq, Hrange. unfold lift, ret at 1. lazy beta iota zeta.
    rewrite Hcred, bind_eq. exact Hrun.
  - intros Hmax.
    rewrite (proj2 (Z.ltb_ge _ _)) in Hrange by lia.
    exists "date value out of range".
    unfold ExchangeRates.main. rewrite bind_eq, Hrange. reflexivity.
Qed.

Lemma batch_visits_every_date_witness :
  pendulum.interval_range_days date_2024_07_01 date_2024_07_03 = inr [19905; 19906; 19907]
  /\ map pendulum.isoformat [19905; 19906; 19907] = ["2024-07-01"; "2024-07-02"; "2024-07-03"]
  /\ exists s',
       @ExchangeRates.main (sample_env good_answer) "app" date_2024_07_01 date_2024_07_03
         fresh_state = (inr tt, s')
       /\ invocations s' =
            pipeline "2024-07-01" ++ pipeline "2024-07-02" ++ pipeline "2024-07-03".
Proof.
  split; [vm_compute; reflexivity|].
  split; [vm_compute; reflexivity|].
  assert (Hsch : schema_available (H := sample_env good_answer) sample_fields fresh_state).
  { exists sample_schema_text, sample_schema. repeat split; reflexivity. }
  assert (Hle : pendulum.day date_2024_07_01 <= pendulum.day date_2024_07_03)
    by (vm_compute; discriminate).
  assert (Hlt : pendulum.day date_2024_07_03 < pendulum.max_day) by reflexivity.
  destruct (proj1 (@batch_visits_every_date (sample_env good_answer) "app"
                     date_2024_07_01 date_2024_07_03 sample_fields fresh_state Hle)
              Hlt eq_refl Hsch (fun _ _ => eq_refl))
    as [days [Hdays [_ [_ [s' [Hrun Hinv]]]]]].
  exists s'. split; [exact Hrun|].
  rewrite Hinv.
  assert (Heq : days = [19905; 19906; 19907])
    by (vm_compute in Hdays; injection Hdays as <-; reflexivity).
  rewrite Heq. vm_compute. reflexivity.
Defined.

(** C7 as stated, for every [start_date <= end_date], fails twice.  A range that ends on 9999-12-31 raises while its dates are
    enumerated, before any date is processed; and the loader has no handler,
    so without the schema object its first read raises and the loop stops in
    the first date of the range. *)
Lemma range_is_not_always_walked :
  (pendulum.day date_9999_12_30 <= pendulum.day date_9999_12_31
   /\ @ExchangeRates.main (sample_env good_answer) "app" date_9999_12_30 date_9999_12_31
        fresh_state
      = (inl (OverflowError "date value out of range"), fresh_state))
  /\ (pendulum.day date_2024_07_01 <= pendulum.day date_2024_07_03
      /\ exists s',
           @ExchangeRates.main (sample_env good_answer) "app" date_2024_07_01 date_2024_07_03
             empty_state
           = (inl (NotFound "No such object: schemes/exchange_rates_schema.json"), s')
           /\ invocations s' = pipeline "2024-07-01").
Proof.
  split.
  - split; [vm_compute; discriminate|vm_compute; reflexivity].
  - split; [vm_compute; discriminate|].
    eexists. split; vm_compute; reflexivity.
Qed.

(** ** The sink *)

(** C8. For a date and a record set, the sink sends one upload of the CSV
    text of the record set to [data/{date}/exchange_rates_{date}.csv]; unless
    that call raises, the object at that name holds the text afterwards,
    whatever was there before, and no other object changes.  The text is
    [to_csv(index=False)]: for a frame with the canonical columns, the header
    line [date,base,currency,rate,last_update], then one line per row holding
    the row's cells and no index.  The operator writes the same text to its
    file. *)
Theorem sink_writes_csv `{Environment} (date : string) (df : pd.DataFrame) (s : State) :
  let name := ExchangeRates.blob_name date in
  let text := pd.to_csv df false in
  name = "data/" +:+ date +:+ "/exchange_rates_" +:+ date +:+ ".csv"
  /\ (pd.labels df = canonical ->
      text = "date,base,currency,rate,last_update" +:+ nl
             +:+ String.concat ""
                   (map (fun i => pd.csv_line (map pd.csv_cell (pd.row df i)))
                        (seq 0 (pd.nrows df))))
  /\ (exists s',
        ExchangeRates.load_file_to_bucket date (Some df) s = (inr tt, s')
        /\ requests s' = requests s ++ [BlobUpload name text]
        /\ (fault (BlobUpload name text) = None ->
            objects s' = <[name := text]> (objects s)
            /\ objects s' !! name = Some text
            /\ forall other, other <> name -> objects s' !! other = objects s !! other))
  /\ (forall (op : ExchangeApiOperator.t) (result : Response) (path : string) (s' : State),
        ExchangeApiOperator.process_data op result s = (inr path, s') ->
        path = ExchangeApiOperator.file_path op
        /\ exists df', pd.labels df' = canonical
                       /\ files s' = <[path := pd.to_csv df' false]> (files s)).
Proof.
  intros name text.
  split; [reflexivity|].
  split.
  { intros Hlabels. unfold text, pd.to_csv. rewrite Hlabels. reflexivity. }
  split.
  { rewrite load_file_to_bucket_unfold. fold name text. cbv zeta.
    destruct (fault (BlobUpload name text)) as [ex|] eqn:Hfault.
    - eexists. split; [reflexivity|]. split; [reflexivity|].
      intros Hnone. discriminate Hnone.
    - eexists. split; [reflexivity|]. split; [reflexivity|].
      intros _. simpl. split; [reflexivity|].
      split; [apply lookup_insert_eq|].
      intros other Hother. apply lookup_insert_ne. congruence. }
  intros op result path s' Hrun.
  destruct (body result) as [ex|payload] eqn:Hbody.
  { unfold ExchangeApiOperator.process_data, ExchangeApiOperator.process_data_try,
      try_except, bind, logging_info, modify, lift, ret, raise in Hrun.
    simpl in Hrun. rewrite Hbody in Hrun. discriminate Hrun. }
  destruct (rates payload) as [items|] eqn:Hitems.
  2:{ unfold ExchangeApiOperator.process_data, ExchangeApiOperator.process_data_try,
        try_except, bind, logging_info, modify, lift, ret, raise in Hrun.
      simpl in Hrun. rewrite Hbody in Hrun. simpl in Hrun. rewrite Hitems in Hrun.
      discriminate Hrun. }
  rewrite (operator_process_data_unfold op result payload items s Hbody Hitems) in Hrun.
  rewrite build_frame_spec in Hrun.
  destruct (existsb negative items); [discriminate Hrun|].
  destruct (existsb null_key items); [discriminate Hrun|].
  cbv zeta in Hrun.
  destruct (fault _); [discriminate Hrun|].
  injection Hrun as <- <-.
  split; [reflexivity|].
  eexists. split; [|reflexivity]. reflexivity.
Qed.

Lemma sink_writes_csv_witness :
  exists s',
    @ExchangeRates.load_file_to_bucket (sample_env good_answer) "2024-07-04"
      (Some (record_set "2024-07-04" "USD" 1720051200 two_rates)) fresh_state = (inr tt, s')
    /\ objects s' !! "data/2024-07-04/exchange_rates_2024-07-04.csv"
       = Some ("date,base,currency,rate,last_update" +:+ nl
               +:+ "2024-07-04,USD,EUR,1.0,1720051200" +:+ nl
               +:+ "2024-07-04,USD,GBP,1.0,1720051200" +:+ nl).
Proof.
  destruct (@sink_writes_csv (sample_env good_answer) "2024-07-04"
              (record_set "2024-07-04" "USD" 1720051200 two_rates) fresh_state)
    as [_ [_ [[s' [Hrun [_ Hobj]]] _]]].
  exists s'. split; [exact Hrun|].
  destruct (Hobj eq_refl) as [_ [Hat _]].
  exact Hat.
Defined.

(** ** Failed dates and the loader *)

(** C9, as the code has it.  With a loader that can run, every turn of the
    loop enters the loader after fetch, transform and sink, also when one of
    those failed.  For a failed date the bucket is as it was before the turn;
    if objects already lie under the date's prefix, the table of the date is
    deleted and rebuilt from exactly those objects; if none does, the loader
    deletes nothing and the tables stay as they were. *)
Theorem loader_runs_for_failed_date `{Environment}
    (c : ExchangeRates.t) (date : string) (sch : list SchemaField) (s : State) :
  schema_available sch s ->
  loader_calls_succeed ->
  exists rates s1 data s2 s3 s',
    ExchangeRates.get_data c date s = (inr rates, s1)
    /\ ExchangeRates.process_data c date rates s1 = (inr data, s2)
    /\ ExchangeRates.load_file_to_bucket date data s2 = (inr tt, s3)
    /\ ExchangeRates.collect c date s = (inr tt, s')
    /\ invocations s' = invocations s ++ pipeline date
    /\ (collection_failed date rates data ->
        let blobs := listing (date_prefix date) s in
        objects s3 = objects s
        /\ (blobs <> [] ->
            requests s' =
              requests s3
              ++ [BlobDownload ExchangeRates.schema_blob; ListBlobs (date_prefix date);
                  DeleteTable (ExchangeRates.bq_table date)]
              ++ map (load_job date sch) blobs
            /\ tables s' = <[ExchangeRates.bq_table date := map ExchangeRates.gs_uri blobs]> (tables s))
        /\ (blobs = [] ->
            requests s' =
              requests s3
              ++ [BlobDownload ExchangeRates.schema_blob; ListBlobs (date_prefix date)]
            /\ tables s' = tables s)).
Proof.
  intros Hsch Hcalls.
  destruct (collect_spec c date sch s Hsch Hcalls)
    as [rates [s1 [data [s2 [s3 [s' [Hget [Hproc [Hload [Hrun [Hinv [_ Hfail]]]]]]]]]]]].
  exists rates, s1, data, s2, s3, s'.
  split; [exact Hget|]. split; [exact Hproc|]. split; [exact Hload|].
  split; [exact Hrun|]. split; [exact Hinv|].
  intros Hfailed blobs. destruct (Hfail Hfailed) as [Hsame [Hreq Htab]].
  fold blobs in Hreq, Htab.
  split; [exact Hsame|]. split.
  - intros Hne. destruct blobs as [|b0 rest]; [congruence|].
    split; [exact Hreq|exact Htab].
  - intros Hnil. rewrite Hnil in Hreq, Htab. split; [exact Hreq|exact Htab].
Qed.

Lemma loader_runs_for_failed_date_witness :
  schema_available (H := sample_env denied_answer) sample_fields two_blob_state
  /\ fst (@ExchangeRates.get_data (sample_env denied_answer)
            (ExchangeRates.__init__ "app") "2024-07-04" two_blob_state) = inr None
  /\ exists s',
       @ExchangeRates.collect (sample_env denied_answer)
         (ExchangeRates.__init__ "app") "2024-07-04" two_blob_state = (inr tt, s')
       /\ tables s' !! "exchange_rates.exchange_rates_20240704"
          = Some ["gs://rates-bucket/data/2024-07-04/a.csv";
                  "gs://rates-bucket/data/2024-07-04/b.csv"].
Proof.
  assert (Hsch : schema_available (H := sample_env denied_answer) sample_fields two_blob_state).
  { exists sample_schema_text, sample_schema. repeat split; reflexivity. }
  split; [exact Hsch|]. split; [vm_compute; reflexivity|].
  destruct (@loader_runs_for_failed_date (sample_env denied_answer)
              (ExchangeRates.__init__ "app") "2024-07-04" sample_fields two_blob_state
              Hsch (fun _ _ => eq_refl))
    as [rates [s1 [data [s2 [s3 [s' [Hget [_ [_ [Hrun [_ Hfail]]]]]]]]]]].
  exists s'. split; [exact Hrun|].
  assert (Hrates : rates = None)
    by (vm_compute in Hget; injection Hget as <- _; reflexivity).
  destruct (Hfail (or_introl Hrates)) as [_ [Hfull _]].
  assert (Hlist : listing (date_prefix "2024-07-04") two_blob_state
                  = ["data/2024-07-04/a.csv"; "data/2024-07-04/b.csv"])
    by (vm_compute; reflexivity).
  destruct Hfull as [_ Htab]; [rewrite Hlist; discriminate|].
  rewrite Htab, Hlist. apply lookup_insert_eq.
Defined.

(** C9 as stated fails when nothing lies under the prefix: the fetch of
    2024-07-04 is denied, the bucket holds the schema only, and the table of
    that date is left over from an earlier run.  The loader is entered, but it
    issues no delete: the table is still there afterwards, with its old
    content. *)
Lemma stale_table_survives_failed_date :
  fst (@ExchangeRates.get_data (sample_env denied_answer)
         (ExchangeRates.__init__ "app") "2024-07-04" stale_state) = inr None
  /\ listing (date_prefix "2024-07-04") stale_state = []
  /\ exists s',
       @ExchangeRates.collect (sample_env denied_answer)
         (ExchangeRates.__init__ "app") "2024-07-04" stale_state = (inr tt, s')
       /\ invocations s' = pipeline "2024-07-04"
       /\ requests s' =
            [HttpGet "https://openexchangerates.org/api/historical/2024-07-04.json?app_id=app&base=USD";
             BlobDownload "schemes/exchange_rates_schema.json";
             ListBlobs "data/2024-07-04/"]
       /\ tables s' !! @ExchangeRates.bq_table "2024-07-04"
          = Some ["gs://rates-bucket/data/2024-07-04/gone.csv"].
Proof.
  split; [vm_compute; reflexivity|].
  split; [vm_compute; reflexivity|].
  eexists. split; [vm_compute; reflexivity|].
  split; [reflexivity|]. split; [reflexivity|].
  vm_compute. reflexivity.
Qed.

(** ** Runs of the model *)

(** A good answer for 2024-07-04: the CSV lands under the date's name and the
    date's table is built from it. *)
Example run_good_date :
  exists s',
    @ExchangeRates.collect (sample_env good_answer)
      (ExchangeRates.__init__ "app") "2024-07-04" fresh_state = (inr tt, s')
    /\ objects s' !! "data/2024-07-04/exchange_rates_2024-07-04.csv"
       = Some ("date,base,currency,rate,last_update" +:+ nl
               +:+ "2024-07-04,USD,EUR,1.0,1720051200" +:+ nl
               +:+ "2024-07-04,USD,GBP,1.0,1720051200" +:+ nl)
    /\ tables s' !! "exchange_rates.exchange_rates_20240704"
       = Some ["gs://rates-bucket/data/2024-07-04/exchange_rates_2024-07-04.csv"].
Proof.
  eexists. split; [vm_compute; reflexivity|].
  split; vm_compute; reflexivity.
Qed.

(** A negative rate: two ERROR lines, nothing stored, nothing loaded. *)
Example run_negative_rate :
  exists s',
    @ExchangeRates.collect (sample_env negative_answer)
      (ExchangeRates.__init__ "app") "2024-07-04" fresh_state = (inr tt, s')
    /\ objects s' = objects fresh_state
    /\ tables s' = tables fresh_state
    /\ log s' =
         [(INFO, "Trying to get an exchange rates by 2024-07-04...");
          (INFO, "Processing data by date 2024-07-04");
          (ERROR, processing_error rate_error);
          (ERROR, sink_error (AttributeError "'NoneType' object has no attribute 'to_csv'"));
          (INFO, "Uploading file from GCS to BQ by 2024-07-04...")].
Proof.
  eexists. split; [vm_compute; reflexivity|].
  repeat split; vm_compute; reflexivity.
Qed.

(** An inverted interval is enumerated downwards. *)
Example run_inverted_interval :
  pendulum.interval_range_days date_2024_07_03 date_2024_07_01 = inr [19907; 19906; 19905].
Proof. vm_compute. reflexivity. Qed.

(** The bounds are the day numbers of 0001-01-01 and 9999-12-31. *)
Example day_bounds_are_dates :
  pendulum.days_from_civil 1 1 1 = pendulum.min_day
  /\ pendulum.days_from_civil 9999 12 31 = pendulum.max_day
  /\ pendulum.isoformat pendulum.min_day = "0001-01-01"
  /\ pendulum.isoformat pendulum.max_day = "9999-12-31".
Proof. repeat split; vm_compute; reflexivity. Qed.

Example isoformat_round_trip :
  pendulum.isoformat (pendulum.days_from_civil 2024 7 4) = "2024-07-04".
Proof. vm_compute. reflexivity. Qed.

(** * Further properties of the code *)

(** ** Fetching *)

(** X1. The batch [get_data] never raises and sends exactly one GET, failed
    or not; it leaves bucket and tables alone; and it returns a mapping
    exactly when the call went through, the response is [ok], its body
    decodes and has the key [rates] -- that mapping. *)
Theorem get_data_outcome `{Environment} (c : ExchangeRates.t) (date : string) (s : State) :
  exists fetched s1,
    ExchangeRates.get_data c date s = (inr fetched, s1)
    /\ requests s1 = requests s ++ [HttpGet (ExchangeRates.url c date)]
    /\ objects s1 = objects s /\ tables s1 = tables s
    /\ (forall r, fetched = Some r <->
          fault (HttpGet (ExchangeRates.url c date)) = None
          /\ ok (http (ExchangeRates.url c date)) = true
          /\ exists payload,
               body (http (ExchangeRates.url c date)) = inr payload
               /\ rates payload = Some r).
Proof.
  unfold ExchangeRates.get_data, ExchangeRates.get_data_try, try_except, requests_get,
    call, bind, enter, logging_info, logging_error, modify, lift, ret, raise. simpl.
  destruct (fault (HttpGet (ExchangeRates.url c date))) as [ex|]; simpl.
  { do 2 eexists. do 4 (split; [reflexivity|]).
    intros r. split; [intros Hr; discriminate Hr|intros [Hf _]; discriminate Hf]. }
  destruct (ok (http (ExchangeRates.url c date))); simpl;
    destruct (body (http (ExchangeRates.url c date))) as [ex|payload]; simpl;
    try destruct (rates payload) as [r0|] eqn:Hrates;
    try destruct (description payload) as [d|];
    simpl; do 2 eexists; do 4 (split; [reflexivity|]); intros r; split;
    try (intros Hr; discriminate Hr);
    try (intros [_ [Hok _]]; discriminate Hok);
    try (intros [_ [_ [p [Hp _]]]]; discriminate Hp).
  all: try (intros Hr; split; [reflexivity|split; [reflexivity|]];
            exists payload; split; [reflexivity|]; congruence).
  all: intros [_ [_ [p [Hp Hr]]]]; congruence.
Qed.

(** X2. When the response is not [ok] and its description cannot be read --
    the body does not decode, or has no key [description] -- the error that
    comes out is that reading error, not the API error: the operator lets it
    leave as it is (no [AirflowException]), the batch form logs it and returns
    [None]. *)
Theorem error_body_unreadable `{Environment}
    (result : Response) (ex : Exception) (s : State) :
  ok result = false ->
  unreadable_description result = Some ex ->
  (forall (c : ExchangeRates.t) (date : string),
     fault (HttpGet (ExchangeRates.url c date)) = None ->
     http (ExchangeRates.url c date) = result ->
     ExchangeRates.get_data c date s
     = (inr None, add_log (ERROR, fetch_error date ex) (fetching c date s)))
  /\ (forall op : ExchangeApiOperator.t,
        fault (HttpGet (ExchangeApiOperator.url op)) = None ->
        http (ExchangeApiOperator.url op) = result ->
        ExchangeApiOperator.get_data op s
        = (inl ex, add_request (HttpGet (ExchangeApiOperator.url op)) s))
  /\ (forall payload, body result = inr payload -> ex = KeyError "description").
Proof.
  intros Hok Hbad. unfold unreadable_description in Hbad.
  split; [|split].
  - intros c date Hfault Hhttp.
    unfold ExchangeRates.get_data, ExchangeRates.get_data_try, try_except, requests_get,
      call, bind, enter, logging_info, logging_error, modify, lift, ret, raise, fetching.
    simpl. rewrite Hfault, Hhttp, Hok. simpl.
    destruct (body result) as [e|payload]; simpl.
    + injection Hbad as <-. reflexivity.
    + destruct (description payload); [discriminate Hbad|].
      injection Hbad as <-. reflexivity.
  - intros op Hfault Hhttp.
    unfold ExchangeApiOperator.get_data, requests_get, call, bind, modify, lift, ret, raise.
    simpl. rewrite Hfault, Hhttp, Hok. simpl.
    destruct (body result) as [e|payload]; simpl.
    + injection Hbad as <-. reflexivity.
    + destruct (description payload); [discriminate Hbad|].
      injection Hbad as <-. reflexivity.
  - intros payload Hbody. rewrite Hbody in Hbad.
    destruct (description payload); [discriminate Hbad|].
    injection Hbad as <-. reflexivity.
Qed.

Lemma error_body_unreadable_witness :
  ok bare_denied_answer = false
  /\ unreadable_description bare_denied_answer = Some (KeyError "description")
  /\ fst (@ExchangeApiOperator.get_data (sample_env bare_denied_answer)
            (ExchangeApiOperator.__init__ "app" "2024-07-04" "/tmp/rates") fresh_state)
     = inl (KeyError "description").
Proof.
  assert (Hok : ok bare_denied_answer = false) by reflexivity.
  assert (Hbad : unreadable_description bare_denied_answer = Some (KeyError "description"))
    by reflexivity.
  split; [exact Hok|]. split; [exact Hbad|].
  destruct (@error_body_unreadable (sample_env bare_denied_answer) bare_denied_answer
              (KeyError "description") fresh_state Hok Hbad) as [_ [Hop _]].
  rewrite (Hop (ExchangeApiOperator.__init__ "app" "2024-07-04" "/tmp/rates")
             eq_refl eq_refl).
  reflexivity.
Defined.

(** ** The operator *)

Lemma operator_process_data_bad_body `{Environment} (op : ExchangeApiOperator.t)
    (result : Response) (ex : Exception) (s : State) :
  match body result with
  | inl e => ex = e
  | inr payload => rates payload = None /\ ex = KeyError "rates"
  end ->
  ExchangeApiOperator.process_data op result s
  = (inl (AirflowException (processing_error ex)), add_log (INFO, "Process data.") s).
Proof.
  intros Hbad.
  unfold ExchangeApiOperator.process_data, ExchangeApiOperator.process_data_try,
    try_except, bind, logging_info, modify, lift, ret, raise. simpl.
  destruct (body result) as [e|payload]; simpl.
  - subst ex. reflexivity.
  - destruct Hbad as [Hrates ->]. rewrite Hrates. reflexivity.
Qed.


(** X4. [execute] on a response that is not [ok]: the error of [get_data]
    leaves [execute], and [process_data] is never reached -- after the opening
    log line and the one GET nothing else has happened, in particular no file
    is written.  The error is the API error when the body has a description,
    and the reading error otherwise. *)
Theorem execute_stops_on_error_status `{Environment}
    (op : ExchangeApiOperator.t) (s : State) :
  fault (HttpGet (ExchangeApiOperator.url op)) = None ->
  ok (http (ExchangeApiOperator.url op)) = false ->
  exists ex,
    ExchangeApiOperator.execute op s
    = (inl ex,
       add_request (HttpGet (ExchangeApiOperator.url op))
         (add_log (INFO, "Get exchange rates by " +:+ ExchangeApiOperator.date op +:+ ".") s))
    /\ (forall e, unreadable_description (http (ExchangeApiOperator.url op)) = Some e -> ex = e)
    /\ (forall payload d,
          body (http (ExchangeApiOperator.url op)) = inr payload ->
          description payload = Some d ->
          ex = AirflowException (api_error (http (ExchangeApiOperator.url op)) d)).
Proof.
  intros Hfault Hok.
  unfold ExchangeApiOperator.execute, ExchangeApiOperator.get_data, requests_get, call,
    bind, logging_info, modify, lift, ret, raise, unreadable_description. simpl.
  rewrite Hfault. simpl. rewrite Hok. simpl.
  destruct (body (http (ExchangeApiOperator.url op))) as [e|payload]; simpl.
  - eexists. split; [reflexivity|]. split.
    + intros e' He. congruence.
    + intros payload d Hp. discriminate Hp.
  - destruct (description payload) as [d|] eqn:Hdesc; simpl; eexists;
      (split; [reflexivity|]); split.
    + intros e He. discriminate He.
    + intros p d' Hp Hd. congruence.
    + intros e He. congruence.
    + intros p d' Hp Hd. congruence.
Qed.

Lemma execute_stops_on_error_status_witness :
  exists s',
    @ExchangeApiOperator.execute (sample_env denied_answer)
      (ExchangeApiOperator.__init__ "app" "2024-07-04" "/tmp/rates") fresh_state
    = (inl (AirflowException "API error 403: Invalid App ID"), s')
    /\ files s' = files fresh_state
    /\ log s' = [(INFO, "Get exchange rates by 2024-07-04.")].
Proof.
  destruct (@execute_stops_on_error_status (sample_env denied_answer)
              (ExchangeApiOperator.__init__ "app" "2024-07-04" "/tmp/rates") fresh_state
              eq_refl eq_refl) as [ex [Hrun [_ Hapi]]].
  eexists. split.
  - rewrite Hrun.
    rewrite (Hapi {| description := Some "Invalid App ID"; rates := None |}
               "Invalid App ID" eq_refl eq_refl).
    reflexivity.
  - split; reflexivity.
Defined.

(** X5. [execute] on an [ok] response hands that very response to
    [process_data]; [get_data] does not look at the body.  So a body without
    the key [rates] surfaces only there, as the [AirflowException]
    ["Error processing data: 'rates'"], and no file is written. *)
Theorem execute_on_ok_response `{Environment}
    (op : ExchangeApiOperator.t) (s : State) :
  fault (HttpGet (ExchangeApiOperator.url op)) = None ->
  ok (http (ExchangeApiOperator.url op)) = true ->
  let result := http (ExchangeApiOperator.url op) in
  let fetched :=
    add_request (HttpGet (ExchangeApiOperator.url op))
      (add_log (INFO, "Get exchange rates by " +:+ ExchangeApiOperator.date op +:+ ".") s) in
  ExchangeApiOperator.execute op s = ExchangeApiOperator.process_data op result fetched
  /\ (forall payload,
        body result = inr payload -> rates payload = None ->
        ExchangeApiOperator.execute op s
        = (inl (AirflowException "Error processing data: 'rates'"),
           add_log (INFO, "Process data.") fetched)).
Proof.
  intros Hfault Hok result fetched.
  assert (Hrun : ExchangeApiOperator.execute op s
                 = ExchangeApiOperator.process_data op result fetched).
  { subst result fetched.
    unfold ExchangeApiOperator.execute, ExchangeApiOperator.get_data, requests_get, call,
      bind, logging_info, modify, ret, raise.
    rewrite Hfault, Hok. reflexivity. }
  split; [exact Hrun|].
  intros payload Hbody Hrates. rewrite Hrun.
  rewrite (operator_process_data_bad_body op result (KeyError "rates") fetched)
    by (rewrite Hbody; split; [exact Hrates|reflexivity]).
  reflexivity.
Qed.

Lemma execute_on_ok_response_witness :
  exists s',
    @ExchangeApiOperator.execute (sample_env no_rates_answer)
      (ExchangeApiOperator.__init__ "app" "2024-07-04" "/tmp/rates") fresh_state
    = (inl (AirflowException "Error processing data: 'rates'"), s')
    /\ files s' = files fresh_state.
Proof.
  destruct (@execute_on_ok_response (sample_env no_rates_answer)
              (ExchangeApiOperator.__init__ "app" "2024-07-04" "/tmp/rates") fresh_state
              eq_refl eq_refl) as [_ Hmissing].
  eexists. split.
  - exact (Hmissing {| description := None; rates := None |} eq_refl eq_refl).
  - reflexivity.
Defined.

(** ** Edges of the transformation *)

(** X6. The empty mapping is not an error: the batch [process_data] returns
    a record set with the five columns and no row, whose CSV is the header
    line alone, and the sink stores exactly that line under the date's name. *)
Theorem empty_mapping_gives_header_only `{Environment}
    (c : ExchangeRates.t) (date : string) (s : State) :
  exists df,
    ExchangeRates.process_data c date (Some []) s
    = (inr (Some df), set_ticks (S (ticks s)) (entered_transform date s))
    /\ pd.nrows df = 0%nat
    /\ pd.labels df = ["date"; "base"; "currency"; "rate"; "last_update"]
    /\ pd.to_csv df false = "date,base,currency,rate,last_update" +:+ nl
    /\ forall s2,
         fault (BlobUpload (ExchangeRates.blob_name date) header_line) = None ->
         exists s3,
           ExchangeRates.load_file_to_bucket date (Some df) s2 = (inr tt, s3)
           /\ objects s3 = <[ExchangeRates.blob_name date := header_line]> (objects s2).
Proof.
  exists (record_set date (ExchangeRates.base_currency c) (clock (ticks s)) []).
  split.
  { rewrite process_data_unfold. unfold ExchangeRates.items.
    rewrite build_frame_spec. reflexivity. }
  split; [reflexivity|]. split; [reflexivity|]. split; [reflexivity|].
  intros s2 Hfault. rewrite load_file_to_bucket_unfold. cbv zeta.
  change (pd.to_csv (record_set date (ExchangeRates.base_currency c) (clock (ticks s)) []) false)
    with header_line.
  rewrite Hfault. eexists. split; reflexivity.
Qed.

Lemma empty_mapping_gives_header_only_witness :
  exists df s3,
    fst (@ExchangeRates.process_data (sample_env empty_answer)
           (ExchangeRates.__init__ "app") "2024-07-04" (Some []) fresh_state) = inr (Some df)
    /\ @ExchangeRates.load_file_to_bucket (sample_env empty_answer) "2024-07-04" (Some df)
         fresh_state = (inr tt, s3)
    /\ objects s3 !! "data/2024-07-04/exchange_rates_2024-07-04.csv"
       = Some ("date,base,currency,rate,last_update" +:+ nl).
Proof.
  destruct (@empty_mapping_gives_header_only (sample_env empty_answer)
              (ExchangeRates.__init__ "app") "2024-07-04" fresh_state)
    as [df [Hrun [_ [_ [_ Hsink]]]]].
  destruct (Hsink fresh_state eq_refl) as [s3 [Hload Hobj]].
  exists df, s3. split; [rewrite Hrun; reflexivity|]. split; [exact Hload|].
  rewrite Hobj. apply lookup_insert_eq.
Defined.

(** X7. The check [rate < 0] is false for NaN: a rate is rejected exactly
    when it is neither [>= 0] nor NaN.  So a mapping whose currencies are not
    null and whose rates are each [>= 0] or NaN passes the validation, and its
    NaN rates are rows of the record set like any other. *)
Theorem nan_rate_passes_validation `{Environment}
    (date base : string) (items : rates_dict) (s : State) :
  Forall (fun kv => null_key kv = false) items ->
  Forall (fun kv => nonnegative kv = true \/ snd kv = S754_nan) items ->
  let df := record_set date base (clock (ticks s)) items in
  (forall kv : option string * float,
     negative kv = true <-> nonnegative kv = false /\ snd kv <> S754_nan)
  /\ build_frame date base items s = (inr df, set_ticks (S (ticks s)) s)
  /\ (forall c : ExchangeRates.t,
        ExchangeRates.base_currency c = base ->
        ExchangeRates.process_data c date (Some items) s
        = (inr (Some df), set_ticks (S (ticks s)) (entered_transform date s)))
  /\ (forall i kv, items !! i = Some kv -> snd kv = S754_nan ->
        pd.at_ df i "rate" = Some (pd.CFloat S754_nan)).
Proof.
  intros Hkeys Hrates df.
  assert (Htri : forall kv : option string * float,
             negative kv = true <-> nonnegative kv = false /\ snd kv <> S754_nan).
  { intros [k f]. unfold negative, nonnegative, SFltb, SFleb, float_zero. simpl.
    destruct f as [sg|sg| |sg m e]; simpl; try destruct sg; simpl;
      intuition congruence. }
  assert (Hneg : existsb negative items = false).
  { apply existsb_false_Forall. eapply Forall_impl; [exact Hrates|].
    intros kv [Hge|Hnan].
    - apply nonnegative_not_negative. exact Hge.
    - destruct (negative kv) eqn:Hn; [|reflexivity].
      apply Htri in Hn. destruct Hn as [_ Hn]. congruence. }
  split; [exact Htri|].
  split.
  { rewrite build_frame_spec, Hneg, (existsb_false_Forall _ _ Hkeys). reflexivity. }
  split.
  { intros c Hbase. rewrite process_data_unfold. simpl.
    rewrite build_frame_spec, Hneg, (existsb_false_Forall _ _ Hkeys), Hbase. reflexivity. }
  intros i kv Hi Hnan.
  destruct (record_set_entry date base (clock (ticks s)) items i kv Hi) as [_ Hr].
  rewrite <- Hnan. exact Hr.
Qed.

Lemma nan_rate_passes_validation_witness :
  Forall (fun kv => null_key kv = false) nan_rates
  /\ Forall (fun kv => nonnegative kv = true \/ snd kv = S754_nan) nan_rates
  /\ fst (@build_frame (sample_env good_answer) "2024-07-04" "USD" nan_rates fresh_state)
     = inr (record_set "2024-07-04" "USD" 1720051200 nan_rates).
Proof.
  assert (Hk : Forall (fun kv => null_key kv = false) nan_rates) by (repeat constructor).
  assert (Hr : Forall (fun kv => nonnegative kv = true \/ snd kv = S754_nan) nan_rates).
  { constructor; [right; reflexivity|]. constructor; [left; reflexivity|constructor]. }
  split; [exact Hk|]. split; [exact Hr|].
  destruct (@nan_rate_passes_validation (sample_env good_answer) "2024-07-04" "USD"
              nan_rates fresh_state Hk Hr) as [_ [Hframe _]].
  rewrite Hframe. reflexivity.
Defined.

(** ** The loader, also when its calls raise *)

Section LoaderEdges.
Context `{Environment}.

Lemma download_any (name : string) (s : State) :
  download_as_string name s =
    match fault (BlobDownload name) with
    | Some ex => (inl ex, add_request (BlobDownload name) s)
    | None =>
        match objects s !! name with
        | Some text => (inr text, add_request (BlobDownload name) s)
        | None => (inl (NotFound ("No such object: " +:+ name)),
                   add_request (BlobDownload name) s)
        end
    end.
Proof.
  unfold download_as_string, call, bind, modify, ret, raise. simpl.
  destruct (fault (BlobDownload name)); [reflexivity|]. simpl.
  destruct (objects s !! name); reflexivity.
Qed.

Lemma list_any (prefix : string) (s : State) :
  list_blobs prefix s =
    match fault (ListBlobs prefix) with
    | Some ex => (inl ex, add_request (ListBlobs prefix) s)
    | None => (inr (listing prefix s), add_request (ListBlobs prefix) s)
    end.
Proof.
  unfold list_blobs, call, bind, modify, ret, raise. simpl.
  destruct (fault (ListBlobs prefix)); reflexivity.
Qed.

Lemma delete_any (table : string) (s : State) :
  delete_table table s =
    match fault (DeleteTable table) with
    | Some ex => (inl ex, add_request (DeleteTable table) s)
    | None => (inr tt, set_tables (delete table) (add_request (DeleteTable table) s))
    end.
Proof.
  unfold delete_table, call, bind, modify, ret, raise. simpl.
  destruct (fault (DeleteTable table)); reflexivity.
Qed.

Lemma load_step_any (date : string) (sch : list SchemaField) (b : string) (s : State) :
  (load_table_from_uri (ExchangeRates.gs_uri b) (ExchangeRates.bq_table date)
     (ExchangeRates.job_config sch) ;;;
   logging_info ("Upload " +:+ ExchangeRates.gs_uri b +:+ " into BQ table -> "
                 +:+ ExchangeRates.bq_table date)) s
  = match fault (load_job date sch b) with
    | Some ex => (inl ex, add_request (load_job date sch b) s)
    | None =>
        (inr tt,
         add_log (loaded_line date b)
           (set_tables (fun t =>
              <[ExchangeRates.bq_table date :=
                  default [] (t !! ExchangeRates.bq_table date) ++ [ExchangeRates.gs_uri b]]> t)
              (add_request (load_job date sch b) s)))
    end.
Proof.
  unfold load_job, ExchangeRates.job_config.
  unfold load_table_from_uri, call, bind, logging_info, modify, ret, raise. simpl.
  destruct (fault _); reflexivity.
Qed.

(** The loop over the blobs touches the date's table only, whatever raises. *)
Lemma load_loop_frame (date : string) (sch : list SchemaField) (blobs : list string)
    (s : State) (r : Exception + unit) (s' : State) :
  for_each blobs (fun blob =>
    load_table_from_uri (ExchangeRates.gs_uri blob) (ExchangeRates.bq_table date)
      (ExchangeRates.job_config sch) ;;;
    logging_info ("Upload " +:+ ExchangeRates.gs_uri blob +:+ " into BQ table -> "
                  +:+ ExchangeRates.bq_table date)) s = (r, s') ->
  objects s' = objects s /\ files s' = files s
  /\ forall t, t <> ExchangeRates.bq_table date -> tables s' !! t = tables s !! t.
Proof.
  revert s. induction blobs as [|b rest IH]; intros s Hrun.
  - injection Hrun as _ <-. repeat split; reflexivity.
  - rewrite for_each_cons, load_step_any in Hrun.
    destruct (fault (load_job date sch b)) as [ex|].
    + injection Hrun as _ <-. repeat split; reflexivity.
    + lazy beta iota in Hrun. apply IH in Hrun.
      destruct Hrun as [Hobj [Hfiles Htab]].
      split; [rewrite Hobj; reflexivity|]. split; [rewrite Hfiles; reflexivity|].
      intros t Ht. rewrite (Htab t Ht). simpl.
      apply lookup_insert_ne. congruence.
Qed.

(** The loop stops at the first job that raises. *)
Lemma load_loop_stops (date : string) (sch : list SchemaField)
    (pre : list string) (b : string) (post : list string) (ex : Exception) (s : State) :
  (forall x, In x pre -> fault (load_job date sch x) = None) ->
  fault (load_job date sch b) = Some ex ->
  exists s',
    for_each (pre ++ b :: post) (fun blob =>
      load_table_from_uri (ExchangeRates.gs_uri blob) (ExchangeRates.bq_table date)
        (ExchangeRates.job_config sch) ;;;
      logging_info ("Upload " +:+ ExchangeRates.gs_uri blob +:+ " into BQ table -> "
                    +:+ ExchangeRates.bq_table date)) s = (inl ex, s')
    /\ requests s' = requests s ++ map (load_job date sch) pre ++ [load_job date sch b]
    /\ tables s' =
         match pre with
         | [] => tables s
         | _ :: _ =>
             <[ExchangeRates.bq_table date :=
                 default [] (tables s !! ExchangeRates.bq_table date)
                 ++ map ExchangeRates.gs_uri pre]> (tables s)
         end.
Proof.
  intros Hpre Hb. revert s Hpre. induction pre as [|x pre IH]; intros s Hpre.
  - simpl app. rewrite for_each_cons, load_step_any, Hb.
    eexists. split; [reflexivity|]. split; reflexivity.
  - assert (Hx : fault (load_job date sch x) = None) by (apply Hpre; left; reflexivity).
    assert (Hrest : forall y, In y pre -> fault (load_job date sch y) = None)
      by (intros y Hy; apply Hpre; right; exact Hy).
    simpl app. rewrite for_each_cons, load_step_any, Hx. lazy beta iota.
    set (s1 := add_log (loaded_line date x) _).
    destruct (IH s1 Hrest) as [s' [Hrun [Hreq Htab]]]. subst s1.
    exists s'. split; [exact Hrun|].
    split; [rewrite Hreq; simpl; rewrite <- List.app_assoc; reflexivity|].
    rewrite Htab. simpl. destruct pre as [|y pre'].
    + reflexivity.
    + rewrite lookup_insert_eq. simpl. rewrite insert_insert_eq.
      rewrite <- List.app_assoc. reflexivity.
Qed.

(** The loader, step by step, for any behaviour of its calls. *)
Lemma loader_unfold (date : string) (s : State) :
  ExchangeRates.from_gcs_to_biguery date s =
    let s0 := add_log (INFO, "Uploading file from GCS to BQ by " +:+ date +:+ "...")
                (add_invocation Loader date s) in
    match download_as_string ExchangeRates.schema_blob s0 with
    | (inl ex, s1) => (inl ex, s1)
    | (inr text, s1) =>
        match json_loads text with
        | inl ex => (inl ex, s1)
        | inr fields =>
            match ExchangeRates.build_schema fields with
            | inl ex => (inl ex, s1)
            | inr sch =>
                match list_blobs (date_prefix date) s1 with
                | (inl ex, s2) => (inl ex, s2)
                | (inr blobs, s2) =>
                    if (0 <? length blobs)%nat then
                      match delete_table (ExchangeRates.bq_table date) s2 with
                      | (inl ex, s3) => (inl ex, s3)
                      | (inr _, s3) =>
                          for_each blobs (fun blob =>
                            load_table_from_uri (ExchangeRates.gs_uri blob)
                              (ExchangeRates.bq_table date) (ExchangeRates.job_config sch) ;;;
                            logging_info ("Upload " +:+ ExchangeRates.gs_uri blob
                                          +:+ " into BQ table -> "
                                          +:+ ExchangeRates.bq_table date)) s3
                      end
                    else (inr tt, s2)
                end
            end
        end
    end.
Proof.
  unfold ExchangeRates.from_gcs_to_biguery.
  rewrite bind_eq. unfold enter at 1, modify at 1. lazy beta iota.
  rewrite bind_eq. unfold logging_info at 1, modify at 1. lazy beta iota zeta.
  rewrite bind_eq.
  destruct (download_as_string _ _) as [[ex|text] s1]; [reflexivity|].
  rewrite bind_eq. destruct (json_loads text) as [ex|fields]; [reflexivity|].
  unfold lift at 1, ret at 1. lazy beta iota.
  rewrite bind_eq. destruct (ExchangeRates.build_schema fields) as [ex|sch]; [reflexivity|].
  unfold lift at 1, ret at 1. lazy beta iota zeta.
  fold (date_prefix date). rewrite bind_eq.
  destruct (list_blobs _ _) as [[ex|blobs] s2]; [reflexivity|].
  destruct (0 <? length blobs)%nat; [|reflexivity].
  rewrite bind_eq. destruct (delete_table _ _) as [[ex|[]] s3]; reflexivity.
Qed.

(** However the loader ends, the bucket and the files are as they were, and
    so is every table but the date's. *)
Lemma loader_frame (date : string) (s : State) :
  objects (snd (ExchangeRates.from_gcs_to_biguery date s)) = objects s
  /\ files (snd (ExchangeRates.from_gcs_to_biguery date s)) = files s
  /\ (forall t, t <> ExchangeRates.bq_table date ->
        tables (snd (ExchangeRates.from_gcs_to_biguery date s)) !! t = tables s !! t).
Proof.
  rewrite loader_unfold. cbv zeta. rewrite download_any.
  destruct (fault (BlobDownload ExchangeRates.schema_blob)) as [ex|];
    [repeat split; reflexivity|].
  simpl objects.
  destruct (objects s !! ExchangeRates.schema_blob) as [text|];
    [|repeat split; reflexivity].
  destruct (json_loads text) as [ex|fields]; [repeat split; reflexivity|].
  destruct (ExchangeRates.build_schema fields) as [ex|sch]; [repeat split; reflexivity|].
  rewrite list_any.
  destruct (fault (ListBlobs (date_prefix date))) as [ex|]; [repeat split; reflexivity|].
  change (listing (date_prefix date) _) with (listing (date_prefix date) s).
  destruct (listing (date_prefix date) s) as [|b0 rest] eqn:Hlist;
    [repeat split; reflexivity|].
  change (0 <? length (b0 :: rest))%nat with true. lazy beta iota.
  rewrite delete_any.
  destruct (fault (DeleteTable (ExchangeRates.bq_table date))) as [ex|].
  { split; [reflexivity|]. split; [reflexivity|]. intros t _; reflexivity. }
  match goal with |- context [for_each (b0 :: rest) ?body ?s3] =>
    destruct (for_each (b0 :: rest) body s3) as [r s'] eqn:Hloop
  end.
  destruct (load_loop_frame date sch (b0 :: rest) _ _ _ Hloop) as [Hobj [Hfiles Htab]].
  simpl snd. split; [rewrite Hobj; reflexivity|]. split; [rewrite Hfiles; reflexivity|].
  intros t Ht. rewrite (Htab t Ht). simpl. apply lookup_delete_ne. congruence.
Qed.

End LoaderEdges.

(** X8. Without a usable schema -- the object is missing, its download
    raises, its text does not decode, or a field lacks one of the three keys
    -- the loader raises right after its first read: it has listed nothing,
    deleted nothing and loaded nothing.  A missing object gives [NotFound]. *)
Theorem loader_needs_schema `{Environment} (date : string) (s : State) :
  fault (BlobDownload ExchangeRates.schema_blob) <> None
  \/ (forall sch, ~ schema_available sch s) ->
  exists ex s',
    ExchangeRates.from_gcs_to_biguery date s = (inl ex, s')
    /\ requests s' = requests s ++ [BlobDownload ExchangeRates.schema_blob]
    /\ tables s' = tables s
    /\ objects s' = objects s
    /\ (fault (BlobDownload ExchangeRates.schema_blob) = None ->
        objects s !! ExchangeRates.schema_blob = None ->
        ex = NotFound "No such object: schemes/exchange_rates_schema.json").
Proof.
  intros Hno. rewrite loader_unfold. cbv zeta. rewrite download_any.
  destruct (fault (BlobDownload ExchangeRates.schema_blob)) as [ex|] eqn:Hfault.
  { do 2 eexists. split; [reflexivity|]. repeat split; try reflexivity.
    intros Hnone. discriminate Hnone. }
  simpl objects.
  destruct (objects s !! ExchangeRates.schema_blob) as [text|] eqn:Hblob.
  2:{ do 2 eexists. split; [reflexivity|]. repeat split; reflexivity. }
  destruct (json_loads text) as [ex|fields] eqn:Hjson.
  { do 2 eexists. split; [reflexivity|]. repeat split; try reflexivity.
    intros _ Hnone. discriminate Hnone. }
  destruct (ExchangeRates.build_schema fields) as [ex|sch] eqn:Hsch.
  { do 2 eexists. split; [reflexivity|]. repeat split; try reflexivity.
    intros _ Hnone. discriminate Hnone. }
  exfalso. destruct Hno as [Hraises|Hno]; [apply Hraises; reflexivity|].
  apply (Hno sch). exists text, fields. repeat split; assumption.
Qed.

Lemma loader_needs_schema_witness :
  (forall sch, ~ schema_available (H := sample_env good_answer) sch empty_state)
  /\ (exists s',
        @ExchangeRates.from_gcs_to_biguery (failing_download_env good_answer) "2024-07-04"
          fresh_state
        = (inl (ServiceError "download failed"), s')
        /\ requests s' = [BlobDownload "schemes/exchange_rates_schema.json"]
        /\ tables s' = tables fresh_state)
  /\ exists s',
       @ExchangeRates.from_gcs_to_biguery (sample_env good_answer) "2024-07-04" empty_state
       = (inl (NotFound "No such object: schemes/exchange_rates_schema.json"), s')
       /\ requests s' = [BlobDownload "schemes/exchange_rates_schema.json"].
Proof.
  assert (Hno : forall sch, ~ schema_available (H := sample_env good_answer) sch empty_state).
  { intros sch [text [j [Hblob _]]]. vm_compute in Hblob. discriminate Hblob. }
  split; [exact Hno|].
  split.
  { assert (Hraises : @fault (failing_download_env good_answer)
                        (BlobDownload ExchangeRates.schema_blob) <> None)
      by (vm_compute; discriminate).
    destruct (@loader_needs_schema (failing_download_env good_answer) "2024-07-04" fresh_state
                (or_introl Hraises))
      as [ex [s' [Hrun [Hreq [Htab _]]]]].
    exists s'. split; [|split; [exact Hreq|exact Htab]].
    rewrite Hrun. f_equal. f_equal.
    assert (Hfst : fst (@ExchangeRates.from_gcs_to_biguery (failing_download_env good_answer)
                          "2024-07-04" fresh_state) = inl (ServiceError "download failed"))
      by (vm_compute; reflexivity).
    rewrite Hrun in Hfst. injection Hfst as ->. reflexivity. }
  destruct (@loader_needs_schema (sample_env good_answer) "2024-07-04" empty_state
              (or_intror Hno))
    as [ex [s' [Hrun [Hreq [_ [_ Hex]]]]]].
  exists s'. split; [|exact Hreq].
  rewrite Hrun, (Hex eq_refl eq_refl). reflexivity.
Defined.

(** X9. The loader is not all-or-nothing.  When the job of one listed object
    raises, that exception leaves the loader; by then the table has been
    deleted and holds the objects listed before the failing one, and the
    objects listed after it are never asked for. *)
Theorem loader_stops_at_failed_job `{Environment}
    (date : string) (sch : list SchemaField) (pre : list string) (b : string)
    (post : list string) (ex : Exception) (s : State) :
  schema_available sch s ->
  fault (BlobDownload ExchangeRates.schema_blob) = None ->
  fault (ListBlobs (date_prefix date)) = None ->
  fault (DeleteTable (ExchangeRates.bq_table date)) = None ->
  listing (date_prefix date) s = pre ++ b :: post ->
  (forall x, In x pre -> fault (load_job date sch x) = None) ->
  fault (load_job date sch b) = Some ex ->
  exists s',
    ExchangeRates.from_gcs_to_biguery date s = (inl ex, s')
    /\ requests s' =
         requests s
         ++ [BlobDownload ExchangeRates.schema_blob; ListBlobs (date_prefix date);
             DeleteTable (ExchangeRates.bq_table date)]
         ++ map (load_job date sch) pre ++ [load_job date sch b]
    /\ tables s' =
         match pre with
         | [] => delete (ExchangeRates.bq_table date) (tables s)
         | _ :: _ => <[ExchangeRates.bq_table date := map ExchangeRates.gs_uri pre]> (tables s)
         end
    /\ objects s' = objects s.
Proof.
  intros [text [j [Hblob [Hjson Hsch]]]] Hdl Hls Hdel Hlist Hpre Hb.
  pose proof (loader_unfold date s) as Hrun. cbv zeta in Hrun.
  rewrite download_any, Hdl in Hrun. simpl objects in Hrun.
  rewrite Hblob, Hjson, Hsch in Hrun.
  rewrite list_any, Hls in Hrun.
  change (listing (date_prefix date) _) with (listing (date_prefix date) s) in Hrun.
  rewrite Hlist in Hrun.
  replace (0 <? length (pre ++ b :: post))%nat with true in Hrun
    by (symmetry; apply Nat.ltb_lt; rewrite length_app; simpl; lia).
  rewrite delete_any, Hdel in Hrun.
  set (s3 := set_tables _ _) in Hrun.
  destruct (load_loop_stops date sch pre b post ex s3 Hpre Hb) as [s' [Hloop [Hreq Htab]]].
  rewrite Hloop in Hrun. subst s3.
  exists s'. split; [exact Hrun|].
  split; [rewrite Hreq; simpl; rewrite <- !List.app_assoc; reflexivity|].
  split.
  - rewrite Htab. simpl. destruct pre as [|x pre']; [reflexivity|].
    rewrite lookup_delete_eq. simpl. rewrite insert_delete_eq. reflexivity.
  - destruct (load_loop_frame date sch (pre ++ b :: post) _ _ _ Hloop) as [Hobj _].
    rewrite Hobj. reflexivity.
Qed.

Lemma loader_stops_at_failed_job_witness :
  exists s',
    @ExchangeRates.from_gcs_to_biguery (failing_load_env good_answer) "2024-07-04"
      two_blob_state = (inl (ServiceError "load job failed"), s')
    /\ tables two_blob_state !! "exchange_rates.exchange_rates_20240704"
       = Some ["gs://rates-bucket/data/2024-07-04/gone.csv"]
    /\ tables s' !! "exchange_rates.exchange_rates_20240704" = None.
Proof.
  assert (Hsch : schema_available (H := failing_load_env good_answer) sample_fields
                   two_blob_state).
  { exists sample_schema_text, sample_schema. repeat split; reflexivity. }
  assert (Hlist : listing (date_prefix "2024-07-04") two_blob_state
                  = [] ++ "data/2024-07-04/a.csv" :: ["data/2024-07-04/b.csv"])
    by (vm_compute; reflexivity).
  destruct (@loader_stops_at_failed_job (failing_load_env good_answer) "2024-07-04"
              sample_fields [] "data/2024-07-04/a.csv" ["data/2024-07-04/b.csv"]
              (ServiceError "load job failed") two_blob_state
              Hsch eq_refl eq_refl eq_refl Hlist
              (fun x (Hx : In x []) => match Hx with end) eq_refl)
    as [s' [Hrun [_ [Htab _]]]].
  exists s'. split; [exact Hrun|]. split; [reflexivity|].
  rewrite Htab. apply lookup_delete_eq.
Defined.

(** X10. Running the loader again changes nothing: the table is deleted
    before the append jobs, so a second run over the same bucket leaves the
    same tables as the first, and neither run changes the bucket. *)
Theorem loader_is_idempotent `{Environment}
    (date : string) (sch : list SchemaField) (s : State) :
  schema_available sch s ->
  loader_calls_succeed ->
  exists s1 s2,
    ExchangeRates.from_gcs_to_biguery date s = (inr tt, s1)
    /\ ExchangeRates.from_gcs_to_biguery date s1 = (inr tt, s2)
    /\ tables s2 = tables s1
    /\ objects s2 = objects s.
Proof.
  intros Hsch Hcalls.
  destruct (loader_spec date sch s Hsch) as [s1 [Hrun1 [Hobj1 [_ [_ [_ Htab1]]]]]];
    try (apply Hcalls; reflexivity).
  { intros b _. apply Hcalls. reflexivity. }
  assert (Hsch1 : schema_available sch s1).
  { destruct Hsch as [text [j [Hblob Hrest]]]. exists text, j.
    split; [rewrite Hobj1; exact Hblob|exact Hrest]. }
  destruct (loader_spec date sch s1 Hsch1) as [s2 [Hrun2 [Hobj2 [_ [_ [_ Htab2]]]]]];
    try (apply Hcalls; reflexivity).
  { intros b _. apply Hcalls. reflexivity. }
  exists s1, s2. split; [exact Hrun1|]. split; [exact Hrun2|].
  split; [|rewrite Hobj2, Hobj1; reflexivity].
  assert (Hlisting : listing (date_prefix date) s1 = listing (date_prefix date) s)
    by (unfold listing; rewrite Hobj1; reflexivity).
  rewrite Hlisting in Htab2. rewrite Htab2.
  destruct (listing (date_prefix date) s) as [|b0 rest]; [reflexivity|].
  rewrite Htab1. apply insert_insert_eq.
Qed.

Lemma loader_is_idempotent_witness :
  exists s1 s2,
    @ExchangeRates.from_gcs_to_biguery (sample_env good_answer) "2024-07-04" two_blob_state
    = (inr tt, s1)
    /\ @ExchangeRates.from_gcs_to_biguery (sample_env good_answer) "2024-07-04" s1
       = (inr tt, s2)
    /\ tables s2 = tables s1.
Proof.
  assert (Hsch : schema_available (H := sample_env good_answer) sample_fields two_blob_state).
  { exists sample_schema_text, sample_schema. repeat split; reflexivity. }
  destruct (@loader_is_idempotent (sample_env good_answer) "2024-07-04" sample_fields
              two_blob_state Hsch (fun _ _ => eq_refl))
    as [s1 [s2 [Hrun1 [Hrun2 [Htab _]]]]].
  exists s1, s2. split; [exact Hrun1|]. split; [exact Hrun2|exact Htab].
Defined.

(** X11. Whatever its calls do and however it ends, the loader of a date
    never changes the bucket or a local file, never touches the table of
    another name, and changes no table at all when nothing is listed under
    the date's prefix. *)
Theorem loader_touches_one_table `{Environment} (date : string) (s : State) :
  let s' := snd (ExchangeRates.from_gcs_to_biguery date s) in
  objects s' = objects s
  /\ files s' = files s
  /\ (forall t, t <> ExchangeRates.bq_table date -> tables s' !! t = tables s !! t)
  /\ (listing (date_prefix date) s = [] -> tables s' = tables s).
Proof.
  cbv zeta. destruct (loader_frame date s) as [Hobj [Hfiles Htab]].
  split; [exact Hobj|]. split; [exact Hfiles|]. split; [exact Htab|].
  intros Hnil. rewrite loader_unfold. cbv zeta. rewrite download_any.
  destruct (fault (BlobDownload ExchangeRates.schema_blob)) as [ex|]; [reflexivity|].
  simpl objects.
  destruct (objects s !! ExchangeRates.schema_blob) as [text|]; [|reflexivity].
  destruct (json_loads text) as [ex|fields]; [reflexivity|].
  destruct (ExchangeRates.build_schema fields) as [ex|sch]; [reflexivity|].
  rewrite list_any.
  destruct (fault (ListBlobs (date_prefix date))) as [ex|]; [reflexivity|].
  change (listing (date_prefix date) _) with (listing (date_prefix date) s).
  rewrite Hnil. reflexivity.
Qed.

(** ** Names *)

Section NameFacts.

Lemma append_cons (c : ascii) (a b : string) : String c a +:+ b = String c (a +:+ b).
Proof. reflexivity. Qed.

Lemma string_length_append (a b : string) :
  String.length (a +:+ b) = (String.length a + String.length b)%nat.
Proof.
  induction a as [|c a IH]; [reflexivity|].
  rewrite append_cons. simpl. rewrite IH. reflexivity.
Qed.

Lemma string_append_assoc (a b c : string) : (a +:+ b) +:+ c = a +:+ (b +:+ c).
Proof.
  induction a as [|x a IH]; [reflexivity|].
  rewrite !append_cons, IH. reflexivity.
Qed.

Lemma string_append_inj (a1 a2 b1 b2 : string) :
  String.length a1 = String.length a2 ->
  a1 +:+ b1 = a2 +:+ b2 -> a1 = a2 /\ b1 = b2.
Proof.
  revert a2. induction a1 as [|c a1 IH]; intros [|c2 a2] Hlen Heq;
    try discriminate Hlen.
  - split; [reflexivity|exact Heq].
  - rewrite !append_cons in Heq. injection Heq as -> Heq. injection Hlen as Hlen.
    destruct (IH a2 Hlen Heq) as [-> ->]. split; reflexivity.
Qed.

Lemma string_append_cancel (p a b : string) : p +:+ a = p +:+ b -> a = b.
Proof.
  intros Heq. apply (string_append_inj p p a b eq_refl Heq).
Qed.

Lemma strip_dashes_length (d : string) :
  (String.length (ExchangeRates.strip_dashes d) <= String.length d)%nat.
Proof.
  induction d as [|c d IH]; simpl; [lia|].
  destruct (Ascii.eqb c "-"%char); simpl; lia.
Qed.

Lemma strip_dashes_fixed (d : string) :
  ExchangeRates.strip_dashes d = d <-> has_dash d = false.
Proof.
  induction d as [|c d IH]; simpl; [split; reflexivity|].
  destruct (Ascii.eqb c "-"%char) eqn:Hc; simpl.
  - split; [|discriminate]. intros Heq.
    pose proof (strip_dashes_length d) as Hle.
    rewrite Heq in Hle. simpl in Hle. lia.
  - split.
    + intros Heq. injection Heq as Heq. apply IH. exact Heq.
    + intros Hno. f_equal. apply IH. exact Hno.
Qed.

Lemma prefix_append (a b c : string) :
  String.prefix (a +:+ b) (a +:+ c) = String.prefix b c.
Proof.
  induction a as [|x a IH]; [reflexivity|].
  rewrite !append_cons. simpl.
  destruct (ascii_dec x x) as [_|Hne]; [exact IH|congruence].
Qed.

(** The date's own blob lies under the date's prefix. *)
Lemma blob_under_prefix (date : string) :
  String.prefix (date_prefix date) (ExchangeRates.blob_name date) = true.
Proof.
  unfold date_prefix, ExchangeRates.blob_name.
  rewrite prefix_append, prefix_append. reflexivity.
Qed.

(** What [list_blobs] returns: the names in the bucket that start with the
    prefix. *)
Lemma in_listing (prefix name : string) (s : State) :
  In name (listing prefix s)
  <-> String.prefix prefix name = true /\ is_Some (objects s !! name).
Proof.
  unfold listing. rewrite <- list_elem_of_In, list_elem_of_filter, list_elem_of_In.
  rewrite in_map_iff. split.
  - intros [Hp [[n text] [Hn Hin]]]. simpl in Hn. subst n. split; [exact Hp|].
    apply list_elem_of_In, elem_of_map_to_list in Hin. exists text. exact Hin.
  - intros [Hp [text Hin]]. split; [exact Hp|]. exists (name, text). split; [reflexivity|].
    apply list_elem_of_In, elem_of_map_to_list. exact Hin.
Qed.

End NameFacts.

(** X12. Different dates never share an object name: [data/{date}/
    exchange_rates_{date}.csv] determines the date.  So the sink of one date
    leaves the object of every other date as it is. *)
Theorem sinks_do_not_collide `{Environment}
    (d1 d2 : string) (data : option pd.DataFrame) (s : State) :
  (ExchangeRates.blob_name d1 = ExchangeRates.blob_name d2 -> d1 = d2)
  /\ (d1 <> d2 ->
      objects (snd (ExchangeRates.load_file_to_bucket d2 data s)) !! ExchangeRates.blob_name d1
      = objects s !! ExchangeRates.blob_name d1).
Proof.
  assert (Hinj : ExchangeRates.blob_name d1 = ExchangeRates.blob_name d2 -> d1 = d2).
  { unfold ExchangeRates.blob_name. intros Heq.
    apply string_append_cancel in Heq.
    assert (Hlen : String.length d1 = String.length d2).
    { apply (f_equal String.length) in Heq.
      rewrite !string_length_append in Heq. simpl in Heq. lia. }
    apply (string_append_inj d1 d2 _ _ Hlen Heq). }
  split; [exact Hinj|].
  intros Hne.
  destruct (load_file_to_bucket_effect d2 data s) as [s3 [Hrun [_ [_ [Hobj _]]]]].
  rewrite Hrun. simpl snd.
  destruct Hobj as [->|[text ->]]; [reflexivity|].
  apply lookup_insert_ne. intros Heq. apply Hne. apply Hinj. symmetry. exact Heq.
Qed.

Lemma sinks_do_not_collide_witness :
  objects (snd (@ExchangeRates.load_file_to_bucket (sample_env good_answer) "2024-07-05"
                  (Some (record_set "2024-07-05" "USD" 1720051200 two_rates))
                  two_blob_state))
    !! ExchangeRates.blob_name "2024-07-04"
  = objects two_blob_state !! ExchangeRates.blob_name "2024-07-04".
Proof.
  destruct (@sinks_do_not_collide (sample_env good_answer) "2024-07-04" "2024-07-05"
              (Some (record_set "2024-07-05" "USD" 1720051200 two_rates)) two_blob_state)
    as [_ Hkeep].
  apply Hkeep. discriminate.
Defined.

(** X13. The task graph and the batch script agree on the object -- the
    object the load task reads is the name the batch sink writes, and it is
    the upload folder followed by the file name the operator writes -- and on
    the schema object, but not on the table: the task graph keeps the dashes
    of the date, the batch loader strips them, so the two table names are the
    same only for a date written without dashes. *)
Theorem task_graph_and_batch_names (ds : string) :
  exchange_rates_dag.source_objects ds = ExchangeRates.blob_name ds
  /\ exchange_rates_dag.source_objects ds
     = exchange_rates_dag.upload_dst ds +:+ csv_file_name ds
  /\ (forall api_key folder_path,
        exists dir,
          ExchangeApiOperator.file_path
            (exchange_rates_dag.collect_data api_key ds folder_path)
          = dir +:+ csv_file_name ds
          /\ (dir = folder_path \/ dir = folder_path +:+ "/"))
  /\ exchange_rates_dag.schema_object = ExchangeRates.schema_blob
  /\ (exchange_rates_dag.destination_project_dataset_table ds = ExchangeRates.bq_table ds
      <-> has_dash ds = false).
Proof.
  split; [reflexivity|].
  split.
  { unfold exchange_rates_dag.source_objects, exchange_rates_dag.upload_dst, csv_file_name.
    rewrite !string_append_assoc. reflexivity. }
  split.
  { intros api_key folder_path.
    unfold ExchangeApiOperator.file_path, ExchangeApiOperator.os_path_join,
      exchange_rates_dag.collect_data, csv_file_name. simpl.
    destruct (_ || _)%bool.
    - exists folder_path. split; [reflexivity|left; reflexivity].
    - exists (folder_path +:+ "/"). split; [|right; reflexivity].
      rewrite string_append_assoc. reflexivity. }
  split; [reflexivity|].
  unfold exchange_rates_dag.destination_project_dataset_table, ExchangeRates.bq_table.
  rewrite <- strip_dashes_fixed. split.
  - intros Heq. apply string_append_cancel in Heq. symmetry. exact Heq.
  - intros Heq. rewrite Heq. reflexivity.
Qed.

(** ** The batch loop as a whole *)

Section BatchFacts.
Context `{Environment}.

(** One turn of the loop, however it ends: the bucket changes at most at the
    date's blob, the tables at most at the date's table. *)
Lemma collect_frame (c : ExchangeRates.t) (date : string) (s : State) :
  let s' := snd (ExchangeRates.collect c date s) in
  (objects s' = objects s
   \/ exists text, objects s' = <[ExchangeRates.blob_name date := text]> (objects s))
  /\ forall t, t <> ExchangeRates.bq_table date -> tables s' !! t = tables s !! t.
Proof.
  cbv zeta.
  destruct (collection_steps c date s)
    as (rates & s1 & data & s2 & s3 & e1 & e2 & e3 & _ & _ & _
        & Hcollect & Htab3 & _ & Hobj3 & _).
  rewrite Hcollect.
  destruct (loader_frame date s3) as [Hobj [_ Htab]].
  rewrite Hobj. split; [exact Hobj3|].
  intros t Ht. rewrite (Htab t Ht), Htab3. reflexivity.
Qed.

Lemma loop_frame (c : ExchangeRates.t) (dates : list string) (s : State) :
  let s' := snd (for_each dates (ExchangeRates.collect c) s) in
  (forall name, is_Some (objects s !! name) -> is_Some (objects s' !! name))
  /\ (forall name, (forall d, In d dates -> name <> ExchangeRates.blob_name d) ->
        objects s' !! name = objects s !! name)
  /\ (forall t, (forall d, In d dates -> t <> ExchangeRates.bq_table d) ->
        tables s' !! t = tables s !! t).
Proof.
  cbv zeta. revert s. induction dates as [|d rest IH]; intros s.
  - simpl. repeat split; auto.
  - rewrite for_each_cons.
    destruct (collect_frame c d s) as [Hobj Htab]. cbv zeta in Hobj, Htab.
    destruct (ExchangeRates.collect c d s) as [[ex|[]] sd]; simpl snd in *.
    + split; [|split].
      * intros name Hin. destruct Hobj as [->|[text ->]]; [exact Hin|].
        rewrite lookup_insert. case_decide; [eexists; reflexivity|exact Hin].
      * intros name Hname. destruct Hobj as [->|[text ->]]; [reflexivity|].
        apply lookup_insert_ne. intros Heq. apply (Hname d); [left; reflexivity|].
        symmetry. exact Heq.
      * intros t Ht. apply Htab. apply Ht. left. reflexivity.
    + destruct (IH sd) as [Hkeep [Hother Htables]].
      split; [|split].
      * intros name Hin. apply Hkeep.
        destruct Hobj as [->|[text ->]]; [exact Hin|].
        rewrite lookup_insert. case_decide; [eexists; reflexivity|exact Hin].
      * intros name Hname. rewrite Hother by (intros d' Hd'; apply Hname; right; exact Hd').
        destruct Hobj as [->|[text ->]]; [reflexivity|].
        apply lookup_insert_ne. intros Heq. apply (Hname d); [left; reflexivity|].
        symmetry. exact Heq.
      * intros t Ht. rewrite Htables by (intros d' Hd'; apply Ht; right; exact Hd').
        apply Htab. apply Ht. left. reflexivity.
Qed.

End BatchFacts.

(** X14. However a run of the batch script ends -- also when the loader
    raises half way through the range -- it removes no object from the bucket,
    it changes no object other than the blobs of the dates of its range, and
    it changes no table other than the tables of those dates.  A range that
    cannot be enumerated has no dates: nothing changes then. *)
Theorem batch_changes_only_its_dates `{Environment}
    (app_id : string) (start_date end_date : pendulum.DateTime) (s : State) :
  let dates := range_dates start_date end_date in
  let s' := snd (ExchangeRates.main app_id start_date end_date s) in
  (forall name, is_Some (objects s !! name) -> is_Some (objects s' !! name))
  /\ (forall name, (forall d, In d dates -> name <> ExchangeRates.blob_name d) ->
        objects s' !! name = objects s !! name)
  /\ (forall t, (forall d, In d dates -> t <> ExchangeRates.bq_table d) ->
        tables s' !! t = tables s !! t).
Proof.
  cbv zeta. unfold range_dates, ExchangeRates.main, ExchangeRates.get_gcp_clients.
  rewrite bind_eq.
  destruct (pendulum.interval_range_days start_date end_date) as [ex|days].
  { unfold lift, raise. simpl snd. repeat split; auto. }
  unfold lift, ret at 1. lazy beta iota zeta. rewrite bind_eq.
  destruct credentials_exist.
  - unfold ret at 1. lazy beta iota. apply loop_frame.
  - unfold raise at 1. lazy beta iota. simpl snd. repeat split; auto.
Qed.

(** X15. A turn in which everything goes well stores the date's CSV and then
    loads it: afterwards the bucket holds the CSV of the record set under the
    date's name, and the date's table is rebuilt from exactly the objects
    under the date's prefix -- the fresh CSV together with whatever else was
    already there. *)
Theorem good_turn_loads_fresh_csv `{Environment}
    (c : ExchangeRates.t) (date : string) (payload : Payload) (items : rates_dict)
    (sch : list SchemaField) (s : State) :
  let result := http (ExchangeRates.url c date) in
  let text := pd.to_csv (record_set date (ExchangeRates.base_currency c)
                           (clock (ticks s)) items) false in
  fault (HttpGet (ExchangeRates.url c date)) = None ->
  ok result = true ->
  body result = inr payload ->
  rates payload = Some items ->
  Forall (fun kv => negative kv = false) items ->
  Forall (fun kv => null_key kv = false) items ->
  fault (BlobUpload (ExchangeRates.blob_name date) text) = None ->
  schema_available sch s ->
  loader_calls_succeed ->
  exists s' blobs,
    ExchangeRates.collect c date s = (inr tt, s')
    /\ objects s' = <[ExchangeRates.blob_name date := text]> (objects s)
    /\ tables s' = <[ExchangeRates.bq_table date := map ExchangeRates.gs_uri blobs]> (tables s)
    /\ In (ExchangeRates.blob_name date) blobs
    /\ (forall b, In b blobs <->
          b = ExchangeRates.blob_name date \/ In b (listing (date_prefix date) s)).
Proof.
  intros result text Hfault Hok Hbody Hrates Hneg Hnull Hup Hsch Hcalls.
  subst result text.
  set (text := pd.to_csv (record_set date (ExchangeRates.base_currency c)
                            (clock (ticks s)) items) false) in *.
  assert (Hget : ExchangeRates.get_data c date s = (inr (Some items), fetching c date s)).
  { unfold ExchangeRates.get_data, ExchangeRates.get_data_try, try_except, requests_get,
      call, bind, enter, logging_info, logging_error, modify, lift, ret, raise, fetching.
    simpl. rewrite Hfault. simpl. rewrite Hok. simpl.
    rewrite Hbody. simpl. rewrite Hrates. reflexivity. }
  set (s1 := fetching c date s).
  assert (Hproc : ExchangeRates.process_data c date (Some items) s1
                  = (inr (Some (record_set date (ExchangeRates.base_currency c)
                                  (clock (ticks s)) items)),
                     set_ticks (S (ticks s)) (entered_transform date s1))).
  { rewrite process_data_unfold. unfold ExchangeRates.items.
    rewrite build_frame_spec, (existsb_false_Forall _ _ Hneg),
      (existsb_false_Forall _ _ Hnull). reflexivity. }
  set (s2 := set_ticks (S (ticks s)) (entered_transform date s1)) in Hproc.
  pose proof (load_file_to_bucket_unfold date
                (Some (record_set date (ExchangeRates.base_currency c)
                         (clock (ticks s)) items)) s2) as Hload.
  lazy beta iota zeta in Hload. fold text in Hload. rewrite Hup in Hload.
  set (s3 := add_log _ _) in Hload.
  assert (Hobj3 : objects s3 = <[ExchangeRates.blob_name date := text]> (objects s))
    by reflexivity.
  assert (Htab3 : tables s3 = tables s) by reflexivity.
  assert (Hsch3 : schema_available sch s3).
  { destruct Hsch as [t [j [Hblob Hrest]]]. exists t, j. split; [|exact Hrest].
    rewrite Hobj3, lookup_insert_ne by apply blob_is_not_schema. exact Hblob. }
  destruct (loader_spec date sch s3 Hsch3) as [s' [Hrun [Hobj [_ [_ [_ Htab]]]]]];
    try (apply Hcalls; reflexivity).
  { intros b _. apply Hcalls. reflexivity. }
  assert (Hin : In (ExchangeRates.blob_name date) (listing (date_prefix date) s3)).
  { apply in_listing. split; [apply blob_under_prefix|].
    rewrite Hobj3, lookup_insert_eq. eexists. reflexivity. }
  exists s', (listing (date_prefix date) s3).
  split.
  { unfold ExchangeRates.collect.
    rewrite bind_eq, Hget. lazy beta iota. fold s1.
    rewrite bind_eq, Hproc. lazy beta iota.
    rewrite bind_eq, Hload. lazy beta iota. exact Hrun. }
  split; [rewrite Hobj; exact Hobj3|].
  split.
  { rewrite Htab, Htab3.
    destruct (listing (date_prefix date) s3) as [|b0 rest]; [destruct Hin|reflexivity]. }
  split; [exact Hin|].
  intros b. rewrite !in_listing, Hobj3. split.
  - intros [Hp Hsome]. rewrite lookup_insert in Hsome.
    case_decide as Hb; [left; symmetry; exact Hb|right; split; [exact Hp|exact Hsome]].
  - intros [->|[Hp Hsome]].
    + split; [apply blob_under_prefix|]. rewrite lookup_insert_eq. eexists. reflexivity.
    + split; [exact Hp|]. rewrite lookup_insert. case_decide; [eexists; reflexivity|exact Hsome].
Qed.

Lemma good_turn_loads_fresh_csv_witness :
  exists s',
    @ExchangeRates.collect (sample_env good_answer) (ExchangeRates.__init__ "app")
      "2024-07-04" two_blob_state = (inr tt, s')
    /\ exists blobs,
         tables s' !! "exchange_rates.exchange_rates_20240704"
         = Some (map (@ExchangeRates.gs_uri (sample_env good_answer)) blobs)
         /\ In "data/2024-07-04/exchange_rates_2024-07-04.csv" blobs
         /\ In "data/2024-07-04/a.csv" blobs.
Proof.
  assert (Hsch : schema_available (H := sample_env good_answer) sample_fields two_blob_state).
  { exists sample_schema_text, sample_schema. repeat split; reflexivity. }
  destruct (@good_turn_loads_fresh_csv (sample_env good_answer)
              (ExchangeRates.__init__ "app") "2024-07-04"
              {| description := None; rates := Some two_rates |} two_rates sample_fields
              two_blob_state eq_refl eq_refl eq_refl eq_refl
              ltac:(repeat constructor) ltac:(repeat constructor) eq_refl Hsch
              (fun _ _ => eq_refl))
    as [s' [blobs [Hrun [_ [Htab [Hfresh Hall]]]]]].
  exists s'. split; [exact Hrun|]. exists blobs.
  split; [rewrite Htab; apply lookup_insert_eq|].
  split; [exact Hfresh|].
  assert (Hlist : listing (date_prefix "2024-07-04") two_blob_state
                  = ["data/2024-07-04/a.csv"; "data/2024-07-04/b.csv"])
    by (vm_compute; reflexivity).
  apply (proj2 (Hall "data/2024-07-04/a.csv")). right.
  rewrite Hlist. left. reflexivity.
Defined.

(** X16. Without the credentials file the script raises before its loop:
    nothing is fetched, stored or loaded, and the state is untouched.  The
    exception is the one of [get_gcp_clients], unless the range could not be
    enumerated in the first place. *)
Theorem batch_needs_credentials `{Environment}
    (app_id : string) (start_date end_date : pendulum.DateTime) (s : State) :
  credentials_exist = false ->
  exists ex,
    ExchangeRates.main app_id start_date end_date s = (inl ex, s)
    /\ (forall days, pendulum.interval_range_days start_date end_date = inr days ->
          exists msg, ex = PyException msg)
    /\ (forall e, pendulum.interval_range_days start_date end_date = inl e -> ex = e).
Proof.
  intros Hcred. unfold ExchangeRates.main, ExchangeRates.get_gcp_clients.
  rewrite bind_eq.
  destruct (pendulum.interval_range_days start_date end_date) as [e|days].
  - exists e. split; [reflexivity|]. split; [intros days Hdays; discriminate Hdays|].
    intros e' He'. injection He' as <-. reflexivity.
  - unfold lift, ret at 1. lazy beta iota zeta. rewrite Hcred, bind_eq.
    eexists. split; [reflexivity|]. split; [|intros e He; discriminate He].
    intros _ _. eexists. reflexivity.
Qed.

Lemma batch_needs_credentials_witness :
  exists msg,
    @ExchangeRates.main (no_credentials_env good_answer) "app" date_2024_07_01 date_2024_07_03
      fresh_state
    = (inl (PyException msg), fresh_state).
Proof.
  destruct (@batch_needs_credentials (no_credentials_env good_answer) "app"
              date_2024_07_01 date_2024_07_03 fresh_state eq_refl)
    as [ex [Hrun [Hex _]]].
  destruct (Hex [19905; 19906; 19907] ltac:(vm_compute; reflexivity)) as [msg ->].
  exists msg. exact Hrun.
Defined.

(** X17. Called with [end_date] before [start_date], the script does not
    skip the range: the interval is inverted, [range('days')] counts down, and
    the days from [start_date] down to [end_date] are each processed once, in
    descending order -- unless [end_date] is 0001-01-01, where the enumeration
    asks for the day before it and raises [OverflowError] with nothing done. *)
Theorem batch_walks_inverted_range `{Environment}
    (app_id : string) (start_date end_date : pendulum.DateTime)
    (sch : list SchemaField) (s : State) :
  pendulum.day end_date < pendulum.day start_date ->
  (pendulum.min_day < pendulum.day end_date ->
   credentials_exist = true ->
   schema_available sch s ->
   loader_calls_succeed ->
   exists days,
     pendulum.interval_range_days start_date end_date = inr days
     /\ length days = Z.to_nat (pendulum.day start_date - pendulum.day end_date + 1)
     /\ (forall i : nat, Z.of_nat i <= pendulum.day start_date - pendulum.day end_date ->
           days !! i = Some (pendulum.day start_date - Z.of_nat i))
     /\ exists s',
          ExchangeRates.main app_id start_date end_date s = (inr tt, s')
          /\ invocations s' =
               invocations s ++ flat_map pipeline (map pendulum.isoformat days))
  /\ (pendulum.day end_date = pendulum.min_day ->
      exists msg,
        ExchangeRates.main app_id start_date end_date s = (inl (OverflowError msg), s)).
Proof.
  intros Hlt. pose proof (interval_range_days_down start_date end_date Hlt) as Hrange.
  split.
  - intros Hmin Hcred Hsch Hcalls.
    rewrite (proj2 (Z.ltb_lt _ _) Hmin) in Hrange.
    set (days := map (fun k => pendulum.day start_date - k)
                   (seqZ 0 (pendulum.day start_date - pendulum.day end_date + 1))) in *.
    exists days. split; [exact Hrange|].
    split; [unfold days; rewrite length_map; apply length_seqZ|].
    split.
    { intros i Hi. unfold days.
      rewrite (lookup_map (fun k => pendulum.day start_date - k) _ i (0 + Z.of_nat i)).
      - f_equal; lia.
      - apply lookup_seqZ_lt. lia. }
    destruct (loop_spec (ExchangeRates.__init__ app_id) sch (map pendulum.isoformat days) s
                Hsch Hcalls) as [s' [Hrun Hinv]].
    exists s'. split; [|exact Hinv].
    unfold ExchangeRates.main, ExchangeRates.get_gcp_clients.
    rewrite bind_eq, Hrange. unfold lift, ret at 1. lazy beta iota zeta.
    rewrite Hcred, bind_eq. exact Hrun.
  - intros Hmin.
    rewrite (proj2 (Z.ltb_ge _ _)) in Hrange by lia.
    exists "date value out of range".
    unfold ExchangeRates.main. rewrite bind_eq, Hrange. reflexivity.
Qed.

Lemma batch_walks_inverted_range_witness :
  pendulum.interval_range_days date_2024_07_03 date_2024_07_01 = inr [19907; 19906; 19905]
  /\ (exists s',
        @ExchangeRates.main (sample_env good_answer) "app" date_2024_07_03 date_2024_07_01
          fresh_state = (inr tt, s')
        /\ invocations s' =
             pipeline "2024-07-03" ++ pipeline "2024-07-02" ++ pipeline "2024-07-01")
  /\ exists msg,
       @ExchangeRates.main (sample_env good_answer) "app" date_0001_01_02 date_0001_01_01
         fresh_state = (inl (OverflowError msg), fresh_state).
Proof.
  split; [vm_compute; reflexivity|].
  assert (Hsch : schema_available (H := sample_env good_answer) sample_fields fresh_state).
  { exists sample_schema_text, sample_schema. repeat split; reflexivity. }
  split.
  - assert (Hlt : pendulum.day date_2024_07_01 < pendulum.day date_2024_07_03) by reflexivity.
    assert (Hmin : pendulum.min_day < pendulum.day date_2024_07_01) by reflexivity.
    destruct (proj1 (@batch_walks_inverted_range (sample_env good_answer) "app"
                       date_2024_07_03 date_2024_07_01 sample_fields fresh_state Hlt)
                Hmin eq_refl Hsch (fun _ _ => eq_refl))
      as [days [Hdays [_ [_ [s' [Hrun Hinv]]]]]].
    exists s'. split; [exact Hrun|].
    rewrite Hinv.
    assert (Heq : days = [19907; 19906; 19905])
      by (vm_compute in Hdays; injection Hdays as <-; reflexivity).
    rewrite Heq. vm_compute. reflexivity.
  - assert (Hlt : pendulum.day date_0001_01_01 < pendulum.day date_0001_01_02) by reflexivity.
    exact (proj2 (@batch_walks_inverted_range (sample_env good_answer) "app"
                    date_0001_01_02 date_0001_01_01 sample_fields fresh_state Hlt)
             eq_refl).
Defined.
